(** * High School Management System API: activities router

    A shallow embedding of [src/backend/routers/activities.py] and the
    properties of its handlers.  Every handler is a function from the
    state of the three collections to the new state and the HTTP response;
    an [HTTPException] raised by the Python code is the [HTTPException]
    response here. *)

From Stdlib Require Import ZArith Ascii String Bool Lia.
From stdpp Require Import base decidable option list strings sorting.

Local Open Scope string_scope.
Local Open Scope Z_scope.
Local Open Scope list_scope.

(** ** Python values used by the handlers *)

(** [Optional[str]] is [option string]; [if x:] on it is false for [None]
    and for the empty string. *)
Definition truthy (x : option string) : bool :=
  match x with
  | Some s => negb (String.eqb s "")
  | None => false
  end.

(** [x or y] where [x] is a string and [y] an optional string. *)
Definition py_or (x : string) (y : option string) : option string :=
  if String.eqb x "" then y else Some x.

(** [a < b] on [str]: code points compared left to right, a proper prefix
    being smaller (UTF-8 byte order is code point order). *)
Definition str_lt (a b : string) : bool := String.ltb a b.

(** [x in xs] on a list of strings. *)
Definition py_in (x : string) (xs : list string) : bool :=
  bool_decide (x ∈ xs).

(** A dict that the code fills by [d[k] = v]: insertion order kept, an
    existing key keeps its place and takes the new value. *)
Fixpoint dict_set {K V} `{EqDecision K} (k : K) (v : V) (d : list (K * V))
  : list (K * V) :=
  match d with
  | [] => [(k, v)]
  | (k', v') :: d' =>
      if decide (k' = k) then (k, v) :: d' else (k', v') :: dict_set k v d'
  end.

Fixpoint dict_get {K V} `{EqDecision K} (k : K) (d : list (K * V)) : option V :=
  match d with
  | [] => None
  | (k', v') :: d' => if decide (k' = k) then Some v' else dict_get k d'
  end.

(** ** Documents *)

(** Attributes the handlers never look at (description, schedule text,
    ...), kept as they are. *)
Definition fields := list (string * string).

(** [schedule_details]; a key that is not in the dict is [None]. *)
Record ScheduleDetails := {
  sd_days : option (list string);
  sd_start_time : option string;
  sd_end_time : option string
}.

(** An activity document without its [_id]. *)
Record ActivityDetails := {
  name : option string;
  schedule_details : option ScheduleDetails;
  participants : list string;
  activity_fields : fields
}.

Record Activity := {
  activity_id : string;
  details : ActivityDetails
}.

Record Teacher := {
  teacher_id : string;
  teacher_fields : fields
}.

Record Announcement := {
  ann_id : string;
  ann_message : string;
  ann_expiration_date : string;
  ann_start_date : option string;
  ann_fields : fields
}.

#[global] Instance ScheduleDetails_eq_dec : EqDecision ScheduleDetails.
Proof. solve_decision. Defined.
#[global] Instance ActivityDetails_eq_dec : EqDecision ActivityDetails.
Proof. solve_decision. Defined.
#[global] Instance Activity_eq_dec : EqDecision Activity.
Proof. solve_decision. Defined.
#[global] Instance Teacher_eq_dec : EqDecision Teacher.
Proof. solve_decision. Defined.
#[global] Instance Announcement_eq_dec : EqDecision Announcement.
Proof. solve_decision. Defined.

(** [not sd] on a [schedule_details] dict: true for the empty dict. *)
Definition sd_is_empty (sd : ScheduleDetails) : bool :=
  match sd_days sd, sd_start_time sd, sd_end_time sd with
  | None, None, None => true
  | _, _, _ => false
  end.

(** ** The document store *)

(** Modelled from the spec: the collections of [..database]
    ([activities_collection], [teachers_collection],
    [announcements_collection]) are not among the sources.  Following the
    storage collaborator contract, a collection is the sequence of its
    documents in scan order, identities are strings, and the operations
    are find-all, find-one, insert-one, update-one (reporting how many
    documents matched and were modified), delete-one (reporting how many
    were deleted) and the unwind, group, sort pipeline. *)
Record Store := {
  activities_collection : list Activity;
  teachers_collection : list Teacher;
  announcements_collection : list Announcement
}.

Definition set_activities (db : Store) (c : list Activity) : Store :=
  {| activities_collection := c;
     teachers_collection := teachers_collection db;
     announcements_collection := announcements_collection db |}.

Definition set_announcements (db : Store) (c : list Announcement) : Store :=
  {| activities_collection := activities_collection db;
     teachers_collection := teachers_collection db;
     announcements_collection := c |}.

Record UpdateResult := {
  matched_count : Z;
  modified_count : Z
}.

Section Collection.
Context {D : Type} `{EqDecision D}.
(** The [{"_id": ...}] filter of every query of the router. *)
Variable doc_id : D → string.

Definition by_id (i : string) (d : D) : bool := String.eqb (doc_id d) i.

(** Modelled from the spec: find-one of the storage contract,
    [find_one({"_id": i})], is the first document with that identity,
    or absent. *)
Fixpoint find_one (i : string) (c : list D) : option D :=
  match c with
  | [] => None
  | d :: c' => if by_id i d then Some d else find_one i c'
  end.

(** Modelled from the spec: update-one of the storage contract,
    [update_one({"_id": i}, mutation)], applies the mutation to the
    first matching document, which counts as modified when it changed. *)
Fixpoint update_one (i : string) (mutation : D → D) (c : list D)
  : list D * UpdateResult :=
  match c with
  | [] => ([], {| matched_count := 0; modified_count := 0 |})
  | d :: c' =>
      if by_id i d then
        (mutation d :: c',
         {| matched_count := 1;
            modified_count := if decide (mutation d = d) then 0 else 1 |})
      else
        let '(c'', r) := update_one i mutation c' in (d :: c'', r)
  end.

(** Modelled from the spec: delete-one of the storage contract,
    [delete_one({"_id": i})], removes the first matching document; the
    result is the collection and [deleted_count]. *)
Fixpoint delete_one (i : string) (c : list D) : list D * Z :=
  match c with
  | [] => ([], 0)
  | d :: c' =>
      if by_id i d then (c', 1)
      else let '(c'', n) := delete_one i c' in (d :: c'', n)
  end.
End Collection.

(** Modelled from the spec: insert-one of the storage contract,
    [insert_one(doc)]; the store assigns the identity [oid] (chosen by
    the storage engine, an input here) and appends the document. *)
Definition insert_one (oid : string) (doc : string → Announcement)
    (c : list Announcement) : list Announcement * string :=
  (c ++ [doc oid], oid).

(** The update operators the router uses: [{"$push": {"participants":
    email}}] appends, [{"$pull": {"participants": email}}] removes every
    occurrence. *)
Definition push_participant (email : string) (a : Activity) : Activity :=
  {| activity_id := activity_id a;
     details :=
       {| name := name (details a);
          schedule_details := schedule_details (details a);
          participants := participants (details a) ++ [email];
          activity_fields := activity_fields (details a) |} |}.

Definition pull_participant (email : string) (a : Activity) : Activity :=
  {| activity_id := activity_id a;
     details :=
       {| name := name (details a);
          schedule_details := schedule_details (details a);
          participants :=
            filter (λ p, p ≠ email) (participants (details a));
          activity_fields := activity_fields (details a) |} |}.

(** [{"$set": update_doc}] where [update_doc] holds [message],
    [expiration_date] and, when [start] is [Some], [start_date]. *)
Definition set_announcement_fields (message expiration : string)
    (start : option string) (a : Announcement) : Announcement :=
  {| ann_id := ann_id a;
     ann_message := message;
     ann_expiration_date := expiration;
     ann_start_date :=
       match start with Some s => Some s | None => ann_start_date a end;
     ann_fields := ann_fields a |}.

(** Binary comparison of strings, the order of [$sort]. *)
Definition str_le (a b : string) : Prop := String.leb a b = true.

#[global] Instance str_le_dec : RelDecision str_le.
Proof. intros a b. unfold str_le. apply _. Defined.

(** Modelled from the spec: the aggregation pipeline of the storage
    contract, with the three stages [get_available_days] passes to it.
    [$unwind] emits one document per element of [schedule_details.days]
    and none for a document without the field; [$group] keeps one
    document per distinct value; [$sort] orders them ascending. *)
Definition unwind_days (c : list Activity) : list string :=
  concat (map (λ a,
    match schedule_details (details a) with
    | Some sd => default [] (sd_days sd)
    | None => []
    end) c).

Definition group_by_value (vs : list string) : list string := remove_dups vs.

Definition sort_ascending (vs : list string) : list string :=
  merge_sort str_le vs.

Definition aggregate_days (c : list Activity) : list string :=
  sort_ascending (group_by_value (unwind_days c)).

(** ** [datetime.strptime(s, "%Y-%m-%d")] *)

(** The format compiles to the regular expression
    [(\d\d\d\d)-(1[0-2]|0[1-9]|[1-9])-(3[0-1]|[1-2]\d|0[1-9]|[1-9]| [1-9])],
    matched at the start of the string with the alternatives tried in
    order; text left after the match, a year below 1 and a day the month
    does not have all raise [ValueError], which is [None] here.  This is
    the parser on strings of ASCII characters: Python's [\d] also takes
    the other Unicode decimal digits, and a string with one of those is
    outside this definition. *)
Definition digit (c : ascii) : option Z :=
  let n := Z.of_N (N_of_ascii c) in
  if (48 <=? n) && (n <=? 57) then Some (n - 48) else None.

Definition digit_in (lo hi : Z) (c : ascii) : option Z :=
  match digit c with
  | Some d => if (lo <=? d) && (d <=? hi) then Some d else None
  | None => None
  end.

Definition blank (c : ascii) : option Z :=
  if Ascii.eqb c " " then Some 0 else None.

Definition one_char (p : ascii → option Z) (s : string) : option (Z * string) :=
  match s with
  | String a r => match p a with Some x => Some (x, r) | None => None end
  | EmptyString => None
  end.

Definition two_chars (p q : ascii → option Z) (s : string)
  : option (Z * string) :=
  match s with
  | String a (String b r) =>
      match p a, q b with
      | Some x, Some y => Some (10 * x + y, r)
      | _, _ => None
      end
  | _ => None
  end.

Definition literal (c : ascii) (s : string) : option string :=
  match s with
  | String a r => if Ascii.eqb a c then Some r else None
  | EmptyString => None
  end.

Definition re_Y (s : string) : option (Z * string) :=
  match two_chars digit digit s with
  | Some (hi, r) =>
      match two_chars digit digit r with
      | Some (lo, r') => Some (100 * hi + lo, r')
      | None => None
      end
  | None => None
  end.

Definition re_m : list (string → option (Z * string)) :=
  [ two_chars (digit_in 1 1) (digit_in 0 2);
    two_chars (digit_in 0 0) (digit_in 1 9);
    one_char (digit_in 1 9) ].

Definition re_d : list (string → option (Z * string)) :=
  [ two_chars (digit_in 3 3) (digit_in 0 1);
    two_chars (digit_in 1 2) digit;
    two_chars (digit_in 0 0) (digit_in 1 9);
    one_char (digit_in 1 9);
    two_chars blank (digit_in 1 9) ].

(** The first alternative after which the rest of the pattern matches. *)
Fixpoint first_match {B} (alts : list (string → option (Z * string)))
    (rest : Z → string → option B) (s : string) : option B :=
  match alts with
  | [] => None
  | alt :: alts' =>
      match
        match alt s with Some (v, r) => rest v r | None => None end
      with
      | Some b => Some b
      | None => first_match alts' rest s
      end
  end.

Definition match_Ymd (s : string) : option (Z * Z * Z * string) :=
  match re_Y s with
  | Some (y, r1) =>
      match literal "-" r1 with
      | Some r2 =>
          first_match re_m (λ m r3,
            match literal "-" r3 with
            | Some r4 => first_match re_d (λ d r5, Some (y, m, d, r5)) r4
            | None => None
            end) r2
      | None => None
      end
  | None => None
  end.

Definition is_leap (y : Z) : bool :=
  (y mod 4 =? 0) && (negb (y mod 100 =? 0) || (y mod 400 =? 0)).

Definition days_in_month (y m : Z) : Z :=
  if m =? 2 then (if is_leap y then 29 else 28)
  else if (m =? 4) || (m =? 6) || (m =? 9) || (m =? 11) then 30
  else 31.

Definition strptime (s : string) : option (Z * Z * Z) :=
  match match_Ymd s with
  | Some (y, m, d, r) =>
      if negb (String.eqb r "") then None
      else if (1 <=? y) && (d <=? days_in_month y m) then Some (y, m, d)
      else None
  | None => None
  end.

(** ** Responses *)

Inductive body :=
| ActivitiesBody (results : list (option string * ActivityDetails))
| AnnouncementsBody (docs : list Announcement)
| AnnouncementBody (doc : Announcement)
| DeletedBody (announcement_id : string)
| DaysBody (days : list string)
| MessageBody (message : string).

Inductive response :=
| Ok (b : body)
| HTTPException (status_code : Z) (detail : string).

Definition status (r : response) : Z :=
  match r with
  | Ok _ => 200
  | HTTPException c _ => c
  end.

(** ** The handlers *)

(** The two filters of the scan of [list_activities]: [false] is the
    [continue] of the loop. *)
Definition day_filter (day : option string) (a : Activity) : bool :=
  match day with
  | Some d =>
      if truthy day then
        let days :=
          match schedule_details (details a) with
          | Some sd => if sd_is_empty sd then [] else default [] (sd_days sd)
          | None => []
          end in
        py_in d days
      else true
  | None => true
  end.

Definition time_filter (start_time end_time : option string) (a : Activity)
  : bool :=
  match start_time, end_time with
  | Some st, Some et =>
      if truthy start_time && truthy end_time then
        match schedule_details (details a) with
        | None => false
        | Some sd =>
            if sd_is_empty sd then false
            else
              match sd_start_time sd, sd_end_time sd with
              | Some s, Some e =>
                  if negb (truthy (Some s)) || negb (truthy (Some e)) then false
                  else if str_lt s st || str_lt et e then false
                  else true
              | _, _ => false
              end
        end
      else true
  | _, _ => true
  end.

Definition activity_key (a : Activity) : option string :=
  py_or (activity_id a) (name (details a)).

(** The body of the loop of [list_activities]: [results[name] = details]
    unless one of the filters said [continue]. *)
Definition scan_step (day start_time end_time : option string)
    (results : list (option string * ActivityDetails)) (a : Activity)
  : list (option string * ActivityDetails) :=
  if day_filter day a && time_filter start_time end_time a
  then dict_set (activity_key a) (details a) results
  else results.

(** The loop runs over [activities_collection.find({})], every document in
    scan order. *)
Definition list_activities (db : Store) (day start_time end_time : option string)
  : list (option string * ActivityDetails) :=
  fold_left (scan_step day start_time end_time) (activities_collection db) [].

Definition is_authenticated (db : Store) (username : string) : bool :=
  match find_one teacher_id username (teachers_collection db) with
  | Some _ => true
  | None => false
  end.

Definition get_announcements (db : Store) : list Announcement :=
  announcements_collection db.

(** The [try] block of the two announcement writers. *)
Definition dates_parse (expiration_date : string) (start_date : option string)
  : bool :=
  match strptime expiration_date with
  | None => false
  | Some _ =>
      match start_date with
      | Some sd =>
          if truthy start_date then
            match strptime sd with Some _ => true | None => false end
          else true
      | None => true
      end
  end.

(** [start_date] as the document gets it: set only [if start_date:]. *)
Definition given (start_date : option string) : option string :=
  if truthy start_date then start_date else None.

Definition create_announcement (db : Store) (oid : string)
    (username message expiration_date : string) (start_date : option string)
  : Store * response :=
  if negb (is_authenticated db username) then
    (db, HTTPException 401 "Authentication required")
  else if String.eqb message "" || String.eqb expiration_date "" then
    (db, HTTPException 400 "Message and expiration date required")
  else if negb (dates_parse expiration_date start_date) then
    (db, HTTPException 400 "Invalid date format (YYYY-MM-DD)")
  else
    let doc i :=
      {| ann_id := i;
         ann_message := message;
         ann_expiration_date := expiration_date;
         ann_start_date := given start_date;
         ann_fields := [] |} in
    let '(c, inserted_id) := insert_one oid doc (announcements_collection db) in
    (set_announcements db c, Ok (AnnouncementBody (doc inserted_id))).

Definition update_announcement (db : Store) (announcement_id : string)
    (username message expiration_date : string) (start_date : option string)
  : Store * response :=
  if negb (is_authenticated db username) then
    (db, HTTPException 401 "Authentication required")
  else if negb (dates_parse expiration_date start_date) then
    (db, HTTPException 400 "Invalid date format (YYYY-MM-DD)")
  else
    let '(c, result) :=
      update_one ann_id announcement_id
        (set_announcement_fields message expiration_date (given start_date))
        (announcements_collection db) in
    let db' := set_announcements db c in
    if matched_count result =? 0 then
      (db', HTTPException 404 "Announcement not found")
    else
      match find_one ann_id announcement_id (announcements_collection db') with
      | Some doc => (db', Ok (AnnouncementBody doc))
      | None => (db', HTTPException 500 "Internal Server Error")
      end.

Definition delete_announcement (db : Store) (announcement_id username : string)
  : Store * response :=
  if negb (is_authenticated db username) then
    (db, HTTPException 401 "Authentication required")
  else
    let '(c, deleted_count) :=
      delete_one ann_id announcement_id (announcements_collection db) in
    let db' := set_announcements db c in
    if deleted_count =? 0 then
      (db', HTTPException 404 "Announcement not found")
    else (db', Ok (DeletedBody announcement_id)).

Definition get_available_days (db : Store) : list string :=
  aggregate_days (activities_collection db).

(** The two roster handlers, over the [update_one] of the activities
    collection: what it returns is the collection afterwards and its
    [UpdateResult]. *)
Section Roster.
Variable activities_update_one :
  string → (Activity → Activity) → list Activity → list Activity * UpdateResult.

Definition signup_for_activity_on (db : Store) (activity_name email : string)
    (teacher_username : option string) : Store * response :=
  match teacher_username with
  | None => (db, HTTPException 401 "Authentication required for this action")
  | Some username =>
      if negb (truthy teacher_username) then
        (db, HTTPException 401 "Authentication required for this action")
      else
        match find_one teacher_id username (teachers_collection db) with
        | None => (db, HTTPException 401 "Invalid teacher credentials")
        | Some _ =>
            match
              find_one activity_id activity_name (activities_collection db)
            with
            | None => (db, HTTPException 404 "Activity not found")
            | Some activity =>
                if py_in email (participants (details activity)) then
                  (db, HTTPException 400 "Already signed up for this activity")
                else
                  let '(c, result) :=
                    activities_update_one activity_name
                      (push_participant email) (activities_collection db) in
                  let db' := set_activities db c in
                  if modified_count result =? 0 then
                    (db', HTTPException 500 "Failed to update activity")
                  else
                    (db', Ok (MessageBody
                      ("Signed up " ++ email ++ " for " ++ activity_name)%string))
            end
        end
  end.

Definition unregister_from_activity_on (db : Store)
    (activity_name email : string) (teacher_username : option string)
  : Store * response :=
  match teacher_username with
  | None => (db, HTTPException 401 "Authentication required for this action")
  | Some username =>
      if negb (truthy teacher_username) then
        (db, HTTPException 401 "Authentication required for this action")
      else
        match find_one teacher_id username (teachers_collection db) with
        | None => (db, HTTPException 401 "Invalid teacher credentials")
        | Some _ =>
            match
              find_one activity_id activity_name (activities_collection db)
            with
            | None => (db, HTTPException 404 "Activity not found")
            | Some activity =>
                if negb (py_in email (participants (details activity))) then
                  (db, HTTPException 400 "Not registered for this activity")
                else
                  let '(c, result) :=
                    activities_update_one activity_name
                      (pull_participant email) (activities_collection db) in
                  let db' := set_activities db c in
                  if modified_count result =? 0 then
                    (db', HTTPException 500 "Failed to update activity")
                  else
                    (db', Ok (MessageBody
                      ("Unregistered " ++ email ++ " from " ++ activity_name)%string))
            end
        end
  end.
End Roster.

(** The handlers on the store of this development. *)
Definition signup_for_activity : Store → string → string → option string
    → Store * response :=
  signup_for_activity_on (update_one activity_id).

Definition unregister_from_activity : Store → string → string → option string
    → Store * response :=
  unregister_from_activity_on (update_one activity_id).

(** ** The service: every route of the router *)

Inductive request :=
| GET_activities (day start_time end_time : option string)
| GET_announcements
| POST_announcements (oid username message expiration_date : string)
    (start_date : option string)
| PUT_announcement (announcement_id username message expiration_date : string)
    (start_date : option string)
| DELETE_announcement (announcement_id username : string)
| GET_days
| POST_signup (activity_name email : string) (teacher_username : option string)
| POST_unregister (activity_name email : string)
    (teacher_username : option string).

Definition handle (db : Store) (req : request) : Store * response :=
  match req with
  | GET_activities day start_time end_time =>
      (db, Ok (ActivitiesBody (list_activities db day start_time end_time)))
  | GET_announcements => (db, Ok (AnnouncementsBody (get_announcements db)))
  | POST_announcements oid username message expiration_date start_date =>
      create_announcement db oid username message expiration_date start_date
  | PUT_announcement announcement_id username message expiration_date start_date =>
      update_announcement db announcement_id username message expiration_date
        start_date
  | DELETE_announcement announcement_id username =>
      delete_announcement db announcement_id username
  | GET_days => (db, Ok (DaysBody (get_available_days db)))
  | POST_signup activity_name email teacher_username =>
      signup_for_activity db activity_name email teacher_username
  | POST_unregister activity_name email teacher_username =>
      unregister_from_activity db activity_name email teacher_username
  end.

(** ** The announcement writers over the date parser *)

(** [datetime.strptime] is Python's, not the router's.  Here the two
    handlers that call it, and the service, take it as [parse]: [parse s]
    is what [datetime.strptime(s, "%Y-%m-%d")] returns and [None] when it
    raises [ValueError].  With [strptime] for [parse] they are the
    handlers above. *)
Section DateParser.
Variable parse : string → option (Z * Z * Z).

Definition dates_parse_on (expiration_date : string)
    (start_date : option string) : bool :=
  match parse expiration_date with
  | None => false
  | Some _ =>
      match start_date with
      | Some sd =>
          if truthy start_date then
            match parse sd with Some _ => true | None => false end
          else true
      | None => true
      end
  end.

Definition create_announcement_on (db : Store) (oid : string)
    (username message expiration_date : string) (start_date : option string)
  : Store * response :=
  if negb (is_authenticated db username) then
    (db, HTTPException 401 "Authentication required")
  else if String.eqb message "" || String.eqb expiration_date "" then
    (db, HTTPException 400 "Message and expiration date required")
  else if negb (dates_parse_on expiration_date start_date) then
    (db, HTTPException 400 "Invalid date format (YYYY-MM-DD)")
  else
    let doc i :=
      {| ann_id := i;
         ann_message := message;
         ann_expiration_date := expiration_date;
         ann_start_date := given start_date;
         ann_fields := [] |} in
    let '(c, inserted_id) := insert_one oid doc (announcements_collection db) in
    (set_announcements db c, Ok (AnnouncementBody (doc inserted_id))).

Definition update_announcement_on (db : Store) (announcement_id : string)
    (username message expiration_date : string) (start_date : option string)
  : Store * response :=
  if negb (is_authenticated db username) then
    (db, HTTPException 401 "Authentication required")
  else if negb (dates_parse_on expiration_date start_date) then
    (db, HTTPException 400 "Invalid date format (YYYY-MM-DD)")
  else
    let '(c, result) :=
      update_one ann_id announcement_id
        (set_announcement_fields message expiration_date (given start_date))
        (announcements_collection db) in
    let db' := set_announcements db c in
    if matched_count result =? 0 then
      (db', HTTPException 404 "Announcement not found")
    else
      match find_one ann_id announcement_id (announcements_collection db') with
      | Some doc => (db', Ok (AnnouncementBody doc))
      | None => (db', HTTPException 500 "Internal Server Error")
      end.

Definition handle_on (db : Store) (req : request) : Store * response :=
  match req with
  | POST_announcements oid username message expiration_date start_date =>
      create_announcement_on db oid username message expiration_date start_date
  | PUT_announcement announcement_id username message expiration_date start_date =>
      update_announcement_on db announcement_id username message expiration_date
        start_date
  | _ => handle db req
  end.
End DateParser.

(** ** Sample data *)

Definition chess : Activity :=
  {| activity_id := "Chess Club";
     details :=
       {| name := None;
          schedule_details :=
            Some {| sd_days := Some ["Monday"; "Friday"];
                    sd_start_time := Some "09:00";
                    sd_end_time := Some "10:00" |};
          participants := ["michael@mergington.edu"];
          activity_fields := [("description", "Learn strategies")] |} |}.

Definition art : Activity :=
  {| activity_id := "Art Club";
     details :=
       {| name := None;
          schedule_details :=
            Some {| sd_days := Some ["Monday"];
                    sd_start_time := Some "15:30";
                    sd_end_time := Some "17:00" |};
          participants := [];
          activity_fields := [] |} |}.

Definition walk : Activity :=
  {| activity_id := "Walking";
     details :=
       {| name := None;
          schedule_details := None;
          participants := ["amy@mergington.edu"];
          activity_fields := [] |} |}.

Definition notice : Announcement :=
  {| ann_id := "a1";
     ann_message := "Welcome";
     ann_expiration_date := "2099-01-01";
     ann_start_date := Some "2098-12-01";
     ann_fields := [("author", "principal")] |}.

Definition school : Store :=
  {| activities_collection := [chess; art; walk];
     teachers_collection :=
       [ {| teacher_id := "mrodriguez"; teacher_fields := [] |} ];
     announcements_collection := [notice] |}.


(** ** Conditions the properties are stated with *)

(** The teacher check of the two roster handlers passes: a username is
    given, it is not empty and a teacher record has it as identity. *)
Definition teacher_known (db : Store) (teacher_username : option string) : Prop :=
  ∃ u t, teacher_username = Some u ∧ u ≠ "" ∧
         find_one teacher_id u (teachers_collection db) = Some t.

#[global] Instance teacher_known_dec db tu : Decision (teacher_known db tu).
Proof.
  unfold teacher_known. destruct tu as [u|].
  - destruct (decide (u = "")) as [->|Hu].
    + right. intros (u' & t & [= <-] & Hne & _). done.
    + destruct (find_one teacher_id u (teachers_collection db)) as [t|] eqn:Ht.
      * left. by exists u, t.
      * right. intros (u' & t & [= <-] & _ & Ht'). congruence.
  - right. intros (u' & t & [=] & _).
Defined.

(** No participants list holds an email twice. *)
Definition roster_ok (db : Store) : Prop :=
  Forall (λ a, NoDup (participants (details a))) (activities_collection db).

#[global] Instance roster_ok_dec db : Decision (roster_ok db).
Proof. unfold roster_ok. apply _. Defined.

Definition error_status (c : Z) : Prop := c = 400 ∨ c = 401 ∨ c = 404.

(** The store after a request: as before, or with one document of one
    collection rewritten, inserted or removed. *)
Inductive one_mutation (db db' : Store) : Prop :=
| no_mutation :
    db' = db → one_mutation db db'
| activity_rewritten l1 a a' l2 :
    activities_collection db = l1 ++ a :: l2 →
    activity_id a' = activity_id a →
    db' = set_activities db (l1 ++ a' :: l2) →
    one_mutation db db'
| announcement_inserted doc :
    db' = set_announcements db (announcements_collection db ++ [doc]) →
    one_mutation db db'
| announcement_rewritten l1 a a' l2 :
    announcements_collection db = l1 ++ a :: l2 →
    ann_id a' = ann_id a →
    db' = set_announcements db (l1 ++ a' :: l2) →
    one_mutation db db'
| announcement_removed l1 a l2 :
    announcements_collection db = l1 ++ a :: l2 →
    db' = set_announcements db (l1 ++ l2) →
    one_mutation db db'.

(** The day filter, spelled out. *)
Definition on_day (d : string) (v : ActivityDetails) : Prop :=
  ∃ sd ds, schedule_details v = Some sd ∧ sd_days sd = Some ds ∧ d ∈ ds.

(** The time filter, spelled out: both schedule times are there and not
    empty, the start is not before [st] and the end not after [et]. *)
Definition in_time_range (st et : string) (v : ActivityDetails) : Prop :=
  ∃ sd s e,
    schedule_details v = Some sd ∧
    sd_start_time sd = Some s ∧ s ≠ "" ∧
    sd_end_time sd = Some e ∧ e ≠ "" ∧
    str_le st s ∧ str_le e et.

(** The day filter as a condition on the activity: when a day is given,
    the days of its schedule hold that day. *)
Definition day_ok (day : option string) (v : ActivityDetails) : Prop :=
  ∀ d, day = Some d → d ≠ "" → on_day d v.

(** An activity without its participants: what no request may change. *)
Definition activity_frame (a : Activity)
  : string * option string * option ScheduleDetails * fields :=
  (activity_id a, name (details a), schedule_details (details a),
   activity_fields (details a)).

(** The dates of a stored announcement parse, for the parser [parse]. *)
Definition dates_valid_on (parse : string → option (Z * Z * Z))
    (a : Announcement) : Prop :=
  parse (ann_expiration_date a) ≠ None ∧
  ∀ s, ann_start_date a = Some s → parse s ≠ None.

(** The activities of a collection that the filters keep and that have
    the key [k], in scan order. *)
Definition kept_with_key (day start_time end_time : option string)
    (k : option string) (c : list Activity) : list Activity :=
  List.filter
    (λ a, day_filter day a && time_filter start_time end_time a
          && bool_decide (activity_key a = k)) c.

(** The entry [list_activities] makes for an activity, and whether the
    two filters keep it. *)
Definition entry (a : Activity) : option string * ActivityDetails :=
  (activity_key a, details a).

Definition kept (day start_time end_time : option string) (a : Activity) : bool :=
  day_filter day a && time_filter start_time end_time a.

(** * Properties *)

(** ** The sample data, evaluated *)

Example strptime_iso : strptime "2099-01-01" = Some (2099, 1, 1).
Proof. reflexivity. Qed.
Example strptime_short : strptime "2099-1-1" = Some (2099, 1, 1).
Proof. reflexivity. Qed.
Example strptime_slashes : strptime "2099/01/01" = None.
Proof. reflexivity. Qed.
Example strptime_empty : strptime "" = None.
Proof. reflexivity. Qed.
Example strptime_feb30 : strptime "2024-02-30" = None.
Proof. reflexivity. Qed.
Example strptime_leap : strptime "2024-02-29" = Some (2024, 2, 29).
Proof. reflexivity. Qed.
Example strptime_trailing : strptime "2099-01-311" = None.
Proof. reflexivity. Qed.
Example days_sample : get_available_days school = ["Friday"; "Monday"].
Proof. reflexivity. Qed.

(** An empty [day] is no day filter, and an empty [teacher_username] is no
    username, even where a teacher record has the empty identity. *)
Example list_activities_empty_day :
  list_activities school (Some "") None None = list_activities school None None None.
Proof. reflexivity. Qed.

Example signup_empty_username :
  signup_for_activity
    {| activities_collection := [art];
       teachers_collection := [ {| teacher_id := ""; teacher_fields := [] |} ];
       announcements_collection := [] |}
    "Art Club" "amy@mergington.edu" (Some "")
  = ({| activities_collection := [art];
        teachers_collection := [ {| teacher_id := ""; teacher_fields := [] |} ];
        announcements_collection := [] |},
     HTTPException 401 "Authentication required for this action").
Proof. reflexivity. Qed.

(** ** String order *)

Lemma ascii_compare_refl (a : ascii) : Ascii.compare a a = Eq.
Proof. unfold Ascii.compare. apply N.compare_refl. Qed.

Lemma ascii_compare_lt_trans (a b c : ascii) :
  Ascii.compare a b = Lt → Ascii.compare b c = Lt → Ascii.compare a c = Lt.
Proof.
  unfold Ascii.compare. rewrite !N.compare_lt_iff. lia.
Qed.

Lemma string_compare_lt_trans (a b c : string) :
  String.compare a b = Lt → String.compare b c = Lt → String.compare a c = Lt.
Proof.
  revert b c. induction a as [|x a IH]; intros [|y b] [|z c]; simpl; try done.
  destruct (Ascii.compare x y) eqn:Hxy; try done.
  - apply Ascii.compare_eq_iff in Hxy as ->.
    destruct (Ascii.compare y z); try done. apply IH.
  - destruct (Ascii.compare y z) eqn:Hyz; try done.
    + apply Ascii.compare_eq_iff in Hyz as <-. by rewrite Hxy.
    + by rewrite (ascii_compare_lt_trans x y z).
Qed.

Lemma string_compare_refl (a : string) : String.compare a a = Eq.
Proof. induction a as [|x a IH]; simpl; [done|]. by rewrite ascii_compare_refl. Qed.

Lemma str_lt_spec (a b : string) : str_lt a b = true ↔ String.compare a b = Lt.
Proof. unfold str_lt, String.ltb. by destruct (String.compare a b). Qed.

Lemma str_le_spec (a b : string) :
  str_le a b ↔ String.compare a b = Lt ∨ a = b.
Proof.
  unfold str_le, String.leb. destruct (String.compare a b) eqn:Hc.
  - apply String.compare_eq_iff in Hc. naive_solver.
  - naive_solver.
  - split; [done|]. intros [?| ->]; [done|]. by rewrite string_compare_refl in Hc.
Qed.

(** [not (a < b)] is [b <= a]: the order is total. *)
Lemma str_lt_false_le (a b : string) : str_lt a b = false ↔ str_le b a.
Proof.
  unfold str_lt, str_le, String.ltb, String.leb.
  rewrite (String.compare_antisym a b).
  by destruct (String.compare b a).
Qed.

#[global] Instance str_le_total : Total str_le.
Proof. intros a b. apply String.leb_total. Qed.

#[global] Instance str_le_trans : Transitive str_le.
Proof.
  intros a b c. rewrite !str_le_spec.
  intros [Hab| ->] [Hbc| ->]; eauto using string_compare_lt_trans.
Qed.

#[global] Instance str_le_antisym : AntiSymm (=) str_le.
Proof. intros a b. apply String.leb_antisym. Qed.

Lemma str_le_ne_lt (a b : string) : str_le a b → a ≠ b → str_lt a b = true.
Proof.
  rewrite str_le_spec, str_lt_spec. intros [Hlt|Heq] Hne; [done|].
  by destruct Hne.
Qed.

(** ** Python helpers *)

Lemma truthy_Some (s : string) : truthy (Some s) = true ↔ s ≠ "".
Proof.
  simpl. rewrite negb_true_iff. split.
  - intros H ->. by rewrite String.eqb_refl in H.
  - intros H. by apply String.eqb_neq.
Qed.

Lemma truthy_true (x : option string) :
  truthy x = true → ∃ s, x = Some s ∧ s ≠ "".
Proof. destruct x as [s|]; [|done]. rewrite truthy_Some. eauto. Qed.

Lemma py_in_true (x : string) (xs : list string) : py_in x xs = true ↔ x ∈ xs.
Proof. unfold py_in. by rewrite bool_decide_eq_true. Qed.

Lemma py_in_false (x : string) (xs : list string) : py_in x xs = false ↔ x ∉ xs.
Proof. unfold py_in. by rewrite bool_decide_eq_false. Qed.

(** ** The collection operations *)

Section CollectionFacts.
Context {D : Type} `{EqDecision D}.
Variable doc_id : D → string.

Lemma by_id_true (i : string) (d : D) : by_id doc_id i d = true ↔ doc_id d = i.
Proof. unfold by_id. apply String.eqb_eq. Qed.

(** [find_one] returns the first document of that identity. *)
Lemma find_one_Some (i : string) (c : list D) (d : D) :
  find_one doc_id i c = Some d ↔
  ∃ l1 l2, c = l1 ++ d :: l2 ∧ doc_id d = i ∧ find_one doc_id i l1 = None.
Proof.
  split.
  - induction c as [|x c IH]; simpl; [done|].
    destruct (by_id doc_id i x) eqn:Hx.
    + intros [= ->]. exists [], c. by rewrite by_id_true in Hx.
    + intros (l1 & l2 & -> & ? & ?)%IH. exists (x :: l1), l2. simpl.
      by rewrite Hx.
  - intros (l1 & l2 & -> & Hd & Hl1).
    induction l1 as [|x l1 IH]; simpl in *.
    + apply by_id_true in Hd. by rewrite Hd.
    + destruct (by_id doc_id i x); [done|]. by apply IH.
Qed.

Lemma find_one_None (i : string) (c : list D) :
  find_one doc_id i c = None ↔ ∀ d, d ∈ c → doc_id d ≠ i.
Proof.
  induction c as [|x c IH]; simpl.
  - split; [|done]. intros _ d Hd. by apply elem_of_nil in Hd.
  - destruct (by_id doc_id i x) eqn:Hx.
    + split; [done|]. intros Hall. apply by_id_true in Hx.
      destruct (Hall x); [left|done].
    + rewrite IH. split.
      * intros Hall d [->|Hd]%elem_of_cons; [|by apply Hall].
        intros Heq%by_id_true. congruence.
      * intros Hall d Hd. apply Hall. by right.
Qed.

Lemma find_one_elem (i : string) (c : list D) (d : D) :
  find_one doc_id i c = Some d → d ∈ c ∧ doc_id d = i.
Proof.
  intros (l1 & l2 & -> & ? & _)%find_one_Some. split; [|done].
  apply elem_of_app. right. left.
Qed.

(** No document of that identity: [update_one] matches nothing and the
    collection is as before. *)
Lemma update_one_None (i : string) (f : D → D) (c : list D) :
  find_one doc_id i c = None →
  update_one doc_id i f c = (c, {| matched_count := 0; modified_count := 0 |}).
Proof.
  induction c as [|x c IH]; simpl; [done|].
  destruct (by_id doc_id i x); [done|]. intros Hc. by rewrite (IH Hc).
Qed.

(** Otherwise the first such document, and only it, is rewritten. *)
Lemma update_one_Some (i : string) (f : D → D) (l1 l2 : list D) (d : D) :
  doc_id d = i → find_one doc_id i l1 = None →
  update_one doc_id i f (l1 ++ d :: l2) =
    (l1 ++ f d :: l2,
     {| matched_count := 1;
        modified_count := if decide (f d = d) then 0 else 1 |}).
Proof.
  intros Hd. induction l1 as [|x l1 IH]; simpl.
  - intros _. apply by_id_true in Hd. by rewrite Hd.
  - destruct (by_id doc_id i x); [done|]. intros Hl1. by rewrite (IH Hl1).
Qed.

Lemma update_one_matched (i : string) (f : D → D) (c : list D) :
  matched_count (update_one doc_id i f c).2 = 0 →
  find_one doc_id i c = None.
Proof.
  induction c as [|x c IH]; simpl; [done|].
  destruct (by_id doc_id i x); [done|].
  destruct (update_one doc_id i f c) as [c' r]. simpl in *. done.
Qed.

Lemma delete_one_None (i : string) (c : list D) :
  find_one doc_id i c = None → delete_one doc_id i c = (c, 0).
Proof.
  induction c as [|x c IH]; simpl; [done|].
  destruct (by_id doc_id i x); [done|]. intros Hc. by rewrite (IH Hc).
Qed.

Lemma delete_one_Some (i : string) (l1 l2 : list D) (d : D) :
  doc_id d = i → find_one doc_id i l1 = None →
  delete_one doc_id i (l1 ++ d :: l2) = (l1 ++ l2, 1).
Proof.
  intros Hd. induction l1 as [|x l1 IH]; simpl.
  - intros _. apply by_id_true in Hd. by rewrite Hd.
  - destruct (by_id doc_id i x); [done|]. intros Hl1. by rewrite (IH Hl1).
Qed.

Lemma delete_one_zero (i : string) (c : list D) :
  (delete_one doc_id i c).2 = 0 → find_one doc_id i c = None.
Proof.
  induction c as [|x c IH]; simpl; [done|].
  destruct (by_id doc_id i x); [done|].
  destruct (delete_one doc_id i c) as [c' n]. simpl in *. done.
Qed.
End CollectionFacts.

Lemma set_activities_same (db : Store) : set_activities db (activities_collection db) = db.
Proof. by destruct db. Qed.

Lemma set_announcements_same (db : Store) :
  set_announcements db (announcements_collection db) = db.
Proof. by destruct db. Qed.

(** ** Signup and unregister *)

Section RosterFacts.
Variable upd :
  string → (Activity → Activity) → list Activity → list Activity * UpdateResult.

Lemma signup_unknown_teacher db n e tu :
  ¬ teacher_known db tu →
  ∃ detail, signup_for_activity_on upd db n e tu = (db, HTTPException 401 detail).
Proof.
  intros Hno. unfold signup_for_activity_on.
  destruct tu as [u|]; [|by eauto].
  destruct (truthy (Some u)) eqn:Hu; simpl; [|by eauto].
  destruct (find_one teacher_id u (teachers_collection db)) as [t|] eqn:Ht;
    [|by eauto].
  destruct Hno. exists u, t. by apply truthy_Some in Hu.
Qed.

Lemma unregister_unknown_teacher db n e tu :
  ¬ teacher_known db tu →
  ∃ detail,
    unregister_from_activity_on upd db n e tu = (db, HTTPException 401 detail).
Proof.
  intros Hno. unfold unregister_from_activity_on.
  destruct tu as [u|]; [|by eauto].
  destruct (truthy (Some u)) eqn:Hu; simpl; [|by eauto].
  destruct (find_one teacher_id u (teachers_collection db)) as [t|] eqn:Ht;
    [|by eauto].
  destruct Hno. exists u, t. by apply truthy_Some in Hu.
Qed.

(** Past the teacher check the handler is the rest of its body. *)
Lemma signup_known_teacher db n e tu :
  teacher_known db tu →
  signup_for_activity_on upd db n e tu =
    match find_one activity_id n (activities_collection db) with
    | None => (db, HTTPException 404 "Activity not found")
    | Some activity =>
        if py_in e (participants (details activity)) then
          (db, HTTPException 400 "Already signed up for this activity")
        else
          let '(c, result) :=
            upd n (push_participant e) (activities_collection db) in
          if modified_count result =? 0 then
            (set_activities db c, HTTPException 500 "Failed to update activity")
          else
            (set_activities db c,
             Ok (MessageBody ("Signed up " ++ e ++ " for " ++ n)%string))
    end.
Proof.
  intros (u & t & -> & Hu & Ht). unfold signup_for_activity_on.
  apply truthy_Some in Hu. rewrite Hu, Ht. simpl.
  destruct (find_one activity_id n (activities_collection db)); [|done].
  destruct (py_in e _); [done|]. by destruct (upd _ _ _).
Qed.

Lemma unregister_known_teacher db n e tu :
  teacher_known db tu →
  unregister_from_activity_on upd db n e tu =
    match find_one activity_id n (activities_collection db) with
    | None => (db, HTTPException 404 "Activity not found")
    | Some activity =>
        if negb (py_in e (participants (details activity))) then
          (db, HTTPException 400 "Not registered for this activity")
        else
          let '(c, result) :=
            upd n (pull_participant e) (activities_collection db) in
          if modified_count result =? 0 then
            (set_activities db c, HTTPException 500 "Failed to update activity")
          else
            (set_activities db c,
             Ok (MessageBody ("Unregistered " ++ e ++ " from " ++ n)%string))
    end.
Proof.
  intros (u & t & -> & Hu & Ht). unfold unregister_from_activity_on.
  apply truthy_Some in Hu. rewrite Hu, Ht. simpl.
  destruct (find_one activity_id n (activities_collection db)); [|done].
  destruct (negb (py_in e _)); [done|]. by destruct (upd _ _ _).
Qed.
End RosterFacts.

Lemma push_participant_changes (e : string) (a : Activity) :
  push_participant e a ≠ a.
Proof.
  destruct a as [i [nm sd ps fs]]. unfold push_participant. simpl.
  intros [= Hps]. apply (f_equal length) in Hps.
  rewrite length_app in Hps. simpl in Hps. lia.
Qed.

Lemma pull_participant_changes (e : string) (a : Activity) :
  e ∈ participants (details a) → pull_participant e a ≠ a.
Proof.
  destruct a as [i [nm sd ps fs]]. unfold pull_participant. simpl.
  intros He [= Hps]. rewrite <- Hps in He.
  apply list_elem_of_filter in He as [Hne _]. by apply Hne.
Qed.

(** On the store, a signup past the checks rewrites the first activity of
    that name, appends the email and succeeds. *)
Lemma signup_appends db n e tu a :
  teacher_known db tu →
  find_one activity_id n (activities_collection db) = Some a →
  e ∉ participants (details a) →
  ∃ l1 l2,
    activities_collection db = l1 ++ a :: l2 ∧
    find_one activity_id n l1 = None ∧
    signup_for_activity db n e tu =
      (set_activities db (l1 ++ push_participant e a :: l2),
       Ok (MessageBody ("Signed up " ++ e ++ " for " ++ n)%string)).
Proof.
  intros Hk Ha He. pose proof Ha as (l1 & l2 & Hc & Hid & Hl1)%find_one_Some.
  exists l1, l2. split; [done|]. split; [done|].
  unfold signup_for_activity. rewrite signup_known_teacher by done.
  rewrite Ha. apply py_in_false in He. rewrite He, Hc.
  rewrite update_one_Some by done.
  destruct (decide _) as [Heq|_]; [|done].
  by apply push_participant_changes in Heq.
Qed.

Lemma unregister_removes db n e tu a :
  teacher_known db tu →
  find_one activity_id n (activities_collection db) = Some a →
  e ∈ participants (details a) →
  ∃ l1 l2,
    activities_collection db = l1 ++ a :: l2 ∧
    find_one activity_id n l1 = None ∧
    unregister_from_activity db n e tu =
      (set_activities db (l1 ++ pull_participant e a :: l2),
       Ok (MessageBody ("Unregistered " ++ e ++ " from " ++ n)%string)).
Proof.
  intros Hk Ha He. pose proof Ha as (l1 & l2 & Hc & Hid & Hl1)%find_one_Some.
  exists l1, l2. split; [done|]. split; [done|].
  unfold unregister_from_activity. rewrite unregister_known_teacher by done.
  rewrite Ha. pose proof He as He'. apply py_in_true in He'. rewrite He', Hc.
  simpl. rewrite update_one_Some by done.
  destruct (decide _) as [Heq|_]; [|done].
  by apply pull_participant_changes in Heq.
Qed.

(** C1. [signup_for_activity] answers 401 when no teacher username is
    given or no teacher record has it; otherwise 404 when no activity has
    the name; otherwise 400 when the email is among the participants;
    otherwise it runs the update, and answers 500 exactly when the update
    reports no modified document and succeeds if not.  On the store the
    update appends the email to the end of the participants of that
    activity and the call succeeds.  The store is unchanged by the 401,
    404 and 400 answers. *)
Theorem signup_for_activity_precedence :
  (∀ upd db activity_name email teacher_username,
     let r := signup_for_activity_on upd db activity_name email teacher_username in
     let found := find_one activity_id activity_name (activities_collection db) in
     let u := upd activity_name (push_participant email) (activities_collection db) in
     (¬ teacher_known db teacher_username → r.1 = db ∧ status r.2 = 401) ∧
     (teacher_known db teacher_username → found = None →
        r.1 = db ∧ status r.2 = 404) ∧
     (∀ a, teacher_known db teacher_username → found = Some a →
        email ∈ participants (details a) → r.1 = db ∧ status r.2 = 400) ∧
     (∀ a, teacher_known db teacher_username → found = Some a →
        email ∉ participants (details a) →
        r.1 = set_activities db u.1 ∧
        (modified_count u.2 = 0 → status r.2 = 500) ∧
        (modified_count u.2 ≠ 0 →
           r.2 = Ok (MessageBody
             ("Signed up " ++ email ++ " for " ++ activity_name)%string))) ∧
     (status r.2 = 500 → modified_count u.2 = 0)) ∧
  (∀ db activity_name email teacher_username a,
     teacher_known db teacher_username →
     find_one activity_id activity_name (activities_collection db) = Some a →
     email ∉ participants (details a) →
     ∃ l1 l2 a',
       activities_collection db = l1 ++ a :: l2 ∧
       find_one activity_id activity_name l1 = None ∧
       activity_id a' = activity_id a ∧
       name (details a') = name (details a) ∧
       schedule_details (details a') = schedule_details (details a) ∧
       activity_fields (details a') = activity_fields (details a) ∧
       participants (details a') = participants (details a) ++ [email] ∧
       signup_for_activity db activity_name email teacher_username =
         (set_activities db (l1 ++ a' :: l2),
          Ok (MessageBody
            ("Signed up " ++ email ++ " for " ++ activity_name)%string))).
Proof.
  split.
  - intros upd db n e tu r found u. subst r found u.
    split; [|split; [|split; [|split]]].
    + intros Hno. by destruct (signup_unknown_teacher upd db n e tu Hno) as [d ->].
    + intros Hk Hf. by rewrite signup_known_teacher, Hf.
    + intros a Hk Hf He. rewrite signup_known_teacher, Hf by done.
      apply py_in_true in He. by rewrite He.
    + intros a Hk Hf He. rewrite signup_known_teacher, Hf by done.
      apply py_in_false in He. rewrite He.
      destruct (upd n _ _) as [c res]. simpl.
      destruct (modified_count res =? 0) eqn:Hm; simpl.
      * apply Z.eqb_eq in Hm. done.
      * apply Z.eqb_neq in Hm. done.
    + destruct (decide (teacher_known db tu)) as [Hk|Hno].
      * rewrite signup_known_teacher by done.
        destruct (find_one activity_id n _) as [a|]; [|done].
        destruct (py_in e _); [done|].
        destruct (upd n _ _) as [c res]. simpl.
        destruct (modified_count res =? 0) eqn:Hm; simpl; [|done].
        by apply Z.eqb_eq in Hm.
      * by destruct (signup_unknown_teacher upd db n e tu Hno) as [d ->].
  - intros db n e tu a Hk Hf He.
    destruct (signup_appends db n e tu a Hk Hf He) as (l1 & l2 & ? & ? & ?).
    by exists l1, l2, (push_participant e a).
Qed.

Lemma school_teacher_known : teacher_known school (Some "mrodriguez").
Proof. by eexists _, _. Defined.

Lemma signup_for_activity_precedence_witness :
  ∃ l1 l2 a',
    activities_collection school = l1 ++ art :: l2 ∧
    find_one activity_id "Art Club" l1 = None ∧
    activity_id a' = activity_id art ∧
    name (details a') = name (details art) ∧
    schedule_details (details a') = schedule_details (details art) ∧
    activity_fields (details a') = activity_fields (details art) ∧
    participants (details a') = participants (details art) ++ ["amy@mergington.edu"] ∧
    signup_for_activity school "Art Club" "amy@mergington.edu" (Some "mrodriguez") =
      (set_activities school (l1 ++ a' :: l2),
       Ok (MessageBody "Signed up amy@mergington.edu for Art Club")).
Proof.
  apply (proj2 signup_for_activity_precedence school "Art Club"
           "amy@mergington.edu" (Some "mrodriguez") art).
  - exact school_teacher_known.
  - reflexivity.
  - vm_compute. intros H. by repeat (inversion H; subst; clear H).
Defined.

(** ** The roster invariant *)

(** What a roster handler can do to the store: nothing, or rewrite one
    activity by the update operator. *)
Lemma signup_outcome db n e tu :
  ((signup_for_activity db n e tu).1 = db ∧
    (∀ b, (signup_for_activity db n e tu).2 ≠ Ok b))
  ∨ ∃ a l1 l2,
      teacher_known db tu ∧
      find_one activity_id n (activities_collection db) = Some a ∧
      (e ∉ participants (details a)) ∧
      activities_collection db = l1 ++ a :: l2 ∧
      find_one activity_id n l1 = None ∧
      signup_for_activity db n e tu =
        (set_activities db (l1 ++ push_participant e a :: l2),
         Ok (MessageBody ("Signed up " ++ e ++ " for " ++ n)%string)).
Proof.
  destruct (decide (teacher_known db tu)) as [Hk|Hno].
  - destruct (find_one activity_id n (activities_collection db)) as [a|] eqn:Ha.
    + destruct (decide (e ∈ participants (details a))) as [He|He].
      * left. unfold signup_for_activity.
        rewrite signup_known_teacher, Ha by done.
        apply py_in_true in He. by rewrite He.
      * right. destruct (signup_appends db n e tu a Hk Ha He)
          as (l1 & l2 & ? & ? & ?). by exists a, l1, l2.
    + left. unfold signup_for_activity. by rewrite signup_known_teacher, Ha.
  - left. unfold signup_for_activity.
    by destruct (signup_unknown_teacher (update_one activity_id) db n e tu Hno)
      as [d ->].
Qed.

Lemma unregister_outcome db n e tu :
  ((unregister_from_activity db n e tu).1 = db ∧
    (∀ b, (unregister_from_activity db n e tu).2 ≠ Ok b))
  ∨ ∃ a l1 l2,
      teacher_known db tu ∧
      find_one activity_id n (activities_collection db) = Some a ∧
      e ∈ participants (details a) ∧
      activities_collection db = l1 ++ a :: l2 ∧
      find_one activity_id n l1 = None ∧
      unregister_from_activity db n e tu =
        (set_activities db (l1 ++ pull_participant e a :: l2),
         Ok (MessageBody ("Unregistered " ++ e ++ " from " ++ n)%string)).
Proof.
  destruct (decide (teacher_known db tu)) as [Hk|Hno].
  - destruct (find_one activity_id n (activities_collection db)) as [a|] eqn:Ha.
    + destruct (decide (e ∈ participants (details a))) as [He|He].
      * right. destruct (unregister_removes db n e tu a Hk Ha He)
          as (l1 & l2 & ? & ? & ?). by exists a, l1, l2.
      * left. unfold unregister_from_activity.
        rewrite unregister_known_teacher, Ha by done.
        apply py_in_false in He. by rewrite He.
    + left. unfold unregister_from_activity.
      by rewrite unregister_known_teacher, Ha.
  - left. unfold unregister_from_activity.
    by destruct (unregister_unknown_teacher (update_one activity_id) db n e tu Hno)
      as [d ->].
Qed.

Lemma signup_keeps_roster db n e tu :
  roster_ok db → roster_ok (signup_for_activity db n e tu).1.
Proof.
  intros Hok.
  destruct (signup_outcome db n e tu)
    as [[-> _]|(a & l1 & l2 & _ & _ & He & Hc & _ & ->)]; [done|].
  unfold roster_ok in *. simpl. rewrite Hc in Hok.
  apply Forall_app in Hok as [H1 [Ha H2]%Forall_cons].
  apply Forall_app. split; [done|]. apply Forall_cons. split; [|done].
  simpl. apply NoDup_app. split; [done|]. split.
  - intros x Hx ->%list_elem_of_singleton. done.
  - apply NoDup_singleton.
Qed.

Lemma unregister_keeps_roster db n e tu :
  roster_ok db → roster_ok (unregister_from_activity db n e tu).1.
Proof.
  intros Hok.
  destruct (unregister_outcome db n e tu)
    as [[-> _]|(a & l1 & l2 & _ & _ & He & Hc & _ & ->)]; [done|].
  unfold roster_ok in *. simpl. rewrite Hc in Hok.
  apply Forall_app in Hok as [H1 [Ha H2]%Forall_cons].
  apply Forall_app. split; [done|]. apply Forall_cons. split; [|done].
  simpl. by apply NoDup_filter.
Qed.

(** A second signup of the same email for the same activity. *)
Lemma signup_twice db n e tu db1 b tu2 :
  signup_for_activity db n e tu = (db1, Ok b) →
  teacher_known db1 tu2 →
  signup_for_activity db1 n e tu2 =
    (db1, HTTPException 400 "Already signed up for this activity").
Proof.
  intros Hfirst Hk2.
  destruct (signup_outcome db n e tu)
    as [[_ Hno]|(a & l1 & l2 & _ & Ha & He & Hc & Hl1 & Heq)].
  - rewrite Hfirst in Hno. by destruct (Hno b).
  - rewrite Heq in Hfirst. injection Hfirst as <- _.
    apply find_one_elem in Ha as [_ Hid].
    unfold signup_for_activity. rewrite signup_known_teacher by done.
    assert (find_one activity_id n
              (activities_collection
                 (set_activities db (l1 ++ push_participant e a :: l2)))
            = Some (push_participant e a)) as ->.
    { apply find_one_Some. by exists l1, l2. }
    assert (py_in e (participants (details (push_participant e a))) = true) as ->.
    { apply py_in_true. simpl. apply elem_of_app. right. left. }
    done.
Qed.

(** C3. When no participants list holds an email twice, none does after
    a call of [signup_for_activity] or [unregister_from_activity],
    whatever the call answers; and after a successful signup, a signup of
    the same email for the same activity by a known teacher answers 400
    and leaves the store as it is. *)
Theorem participants_never_duplicated db activity_name email teacher_username :
  roster_ok db →
  roster_ok (signup_for_activity db activity_name email teacher_username).1 ∧
  roster_ok (unregister_from_activity db activity_name email teacher_username).1 ∧
  (∀ db1 b teacher2,
     signup_for_activity db activity_name email teacher_username = (db1, Ok b) →
     teacher_known db1 teacher2 →
     (signup_for_activity db1 activity_name email teacher2).1 = db1 ∧
     status (signup_for_activity db1 activity_name email teacher2).2 = 400).
Proof.
  intros Hok. split; [by apply signup_keeps_roster|].
  split; [by apply unregister_keeps_roster|].
  intros db1 b tu2 Hfirst Hk2.
  by rewrite (signup_twice _ _ _ _ _ _ _ Hfirst Hk2).
Qed.

Lemma participants_never_duplicated_witness :
  roster_ok (signup_for_activity school "Art Club" "amy@mergington.edu"
               (Some "mrodriguez")).1 ∧
  roster_ok (unregister_from_activity school "Art Club" "amy@mergington.edu"
               (Some "mrodriguez")).1 ∧
  (∀ db1 b teacher2,
     signup_for_activity school "Art Club" "amy@mergington.edu"
       (Some "mrodriguez") = (db1, Ok b) →
     teacher_known db1 teacher2 →
     (signup_for_activity db1 "Art Club" "amy@mergington.edu" teacher2).1 = db1 ∧
     status (signup_for_activity db1 "Art Club" "amy@mergington.edu" teacher2).2
       = 400).
Proof.
  apply (participants_never_duplicated school "Art Club" "amy@mergington.edu"
           (Some "mrodriguez")).
  apply (bool_decide_unpack (roster_ok school)). vm_compute. exact I.
Defined.

(** ** Announcements *)

Lemma given_falsy (start_date : option string) :
  truthy start_date = false → given start_date = None.
Proof. unfold given. by intros ->. Qed.

(** What [update_announcement] can do: answer an error and leave the store,
    or rewrite the first announcement of that identity and return it. *)
Lemma update_announcement_outcome db i username message expiration_date start_date :
  let r := update_announcement db i username message expiration_date start_date in
  (r.1 = db ∧ error_status (status r.2))
  ∨ ∃ old l1 l2,
      is_authenticated db username = true ∧
      dates_parse expiration_date start_date = true ∧
      announcements_collection db = l1 ++ old :: l2 ∧
      ann_id old = i ∧
      find_one ann_id i l1 = None ∧
      let new :=
        set_announcement_fields message expiration_date (given start_date) old in
      r = (set_announcements db (l1 ++ new :: l2), Ok (AnnouncementBody new)).
Proof.
  intros r. subst r. unfold update_announcement, error_status.
  destruct (is_authenticated db username) eqn:Hauth; simpl; [|left; by eauto].
  destruct (dates_parse expiration_date start_date) eqn:Hd; simpl;
    [|left; by eauto].
  destruct (find_one ann_id i (announcements_collection db)) as [old|] eqn:Hf.
  - right. apply find_one_Some in Hf as (l1 & l2 & Hc & Hid & Hl1).
    exists old, l1, l2. repeat (split; [done|]).
    rewrite Hc, update_one_Some by done. simpl.
    set (new := set_announcement_fields _ _ _ old).
    assert (find_one ann_id i (l1 ++ new :: l2) = Some new) as ->; [|done].
    apply find_one_Some. by exists l1, l2.
  - left. rewrite update_one_None by done. simpl.
    rewrite set_announcements_same. eauto.
Qed.

Lemma delete_announcement_outcome db i username :
  let r := delete_announcement db i username in
  (r.1 = db ∧ error_status (status r.2))
  ∨ ∃ old l1 l2,
      is_authenticated db username = true ∧
      announcements_collection db = l1 ++ old :: l2 ∧
      ann_id old = i ∧
      find_one ann_id i l1 = None ∧
      r = (set_announcements db (l1 ++ l2), Ok (DeletedBody i)).
Proof.
  intros r. subst r. unfold delete_announcement, error_status.
  destruct (is_authenticated db username) eqn:Hauth; simpl; [|left; by eauto].
  destruct (find_one ann_id i (announcements_collection db)) as [old|] eqn:Hf.
  - right. apply find_one_Some in Hf as (l1 & l2 & Hc & Hid & Hl1).
    exists old, l1, l2. repeat (split; [done|]).
    by rewrite Hc, delete_one_Some.
  - left. rewrite delete_one_None by done. simpl.
    rewrite set_announcements_same. eauto.
Qed.

Lemma create_announcement_outcome db oid username message expiration_date start_date :
  let r := create_announcement db oid username message expiration_date start_date in
  (r.1 = db ∧ error_status (status r.2))
  ∨ ∃ doc,
      is_authenticated db username = true ∧
      message ≠ "" ∧ expiration_date ≠ "" ∧
      dates_parse expiration_date start_date = true ∧
      r = (set_announcements db (announcements_collection db ++ [doc]),
           Ok (AnnouncementBody doc)).
Proof.
  intros r. subst r. unfold create_announcement, error_status.
  destruct (is_authenticated db username) eqn:Hauth; simpl; [|left; by eauto].
  destruct (String.eqb message "") eqn:Hm; simpl; [left; by eauto|].
  destruct (String.eqb expiration_date "") eqn:He; simpl; [left; by eauto|].
  destruct (dates_parse expiration_date start_date) eqn:Hd; simpl;
    [|left; by eauto].
  right. eexists. apply String.eqb_neq in Hm, He. by repeat (split; [done|]).
Qed.

(** With [strptime] for the parser the handlers over the parser are the
    handlers. *)
Lemma update_announcement_on_strptime db i username message expiration_date
    start_date :
  update_announcement_on strptime db i username message expiration_date
    start_date =
  update_announcement db i username message expiration_date start_date.
Proof. reflexivity. Qed.

Lemma create_announcement_on_strptime db oid username message expiration_date
    start_date :
  create_announcement_on strptime db oid username message expiration_date
    start_date =
  create_announcement db oid username message expiration_date start_date.
Proof. reflexivity. Qed.

Lemma handle_on_strptime db req : handle_on strptime db req = handle db req.
Proof. by destruct req. Qed.

Lemma dates_parse_on_false parse (expiration_date : string)
    (start_date : option string) :
  dates_parse_on parse expiration_date start_date = false ↔
  parse expiration_date = None ∨
  ∃ s, start_date = Some s ∧ s ≠ "" ∧ parse s = None.
Proof.
  unfold dates_parse_on. split.
  - destruct (parse expiration_date); [|by left].
    destruct start_date as [s|]; [|done].
    destruct (truthy (Some s)) eqn:Hs; [|done].
    apply truthy_Some in Hs. destruct (parse s) eqn:Hp; [done|].
    intros _. right. by exists s.
  - intros [->|(s & -> & Hs & Hp)]; [done|].
    destruct (parse expiration_date); [|done].
    apply truthy_Some in Hs. by rewrite Hs, Hp.
Qed.

(** Dates that parse and no announcement of that identity: 404. *)
Lemma update_announcement_on_missing parse db i username message
    expiration_date start_date :
  is_authenticated db username = true →
  dates_parse_on parse expiration_date start_date = true →
  find_one ann_id i (announcements_collection db) = None →
  update_announcement_on parse db i username message expiration_date start_date
  = (db, HTTPException 404 "Announcement not found").
Proof.
  intros Hauth Hd Hnone. unfold update_announcement_on.
  rewrite Hauth, Hd. simpl. rewrite update_one_None by done. simpl.
  by rewrite set_announcements_same.
Qed.

(** C10. In [update_announcement], whatever the date parser accepts: for
    an authenticated user, an expiration date that does not parse, or a
    given start date that does not parse, is answered 400 with the store
    as it was, for every store and every identity, so also when no
    announcement of that identity exists: the dates are checked before the
    announcement is looked up. *)
Theorem update_announcement_dates_before_lookup
    parse db announcement_id username message expiration_date start_date :
  is_authenticated db username = true →
  parse expiration_date = None ∨
    (∃ s, start_date = Some s ∧ s ≠ "" ∧ parse s = None) →
  update_announcement_on parse db announcement_id username message
    expiration_date start_date =
    (db, HTTPException 400 "Invalid date format (YYYY-MM-DD)").
Proof.
  intros Hauth Hbad%dates_parse_on_false. unfold update_announcement_on.
  by rewrite Hauth, Hbad.
Qed.

Lemma update_announcement_dates_before_lookup_witness :
  find_one ann_id "missing" (announcements_collection school) = None ∧
  update_announcement_on strptime school "missing" "mrodriguez" "M"
    "2099/01/01" None =
    (school, HTTPException 400 "Invalid date format (YYYY-MM-DD)") ∧
  update_announcement_on strptime school "a1" "mrodriguez" "M" "2099-01-01"
    (Some "01/12/2098") =
    (school, HTTPException 400 "Invalid date format (YYYY-MM-DD)").
Proof.
  split; [reflexivity|]. split.
  - apply (update_announcement_dates_before_lookup strptime school "missing"
             "mrodriguez" "M" "2099/01/01" None); [reflexivity|].
    left. reflexivity.
  - apply (update_announcement_dates_before_lookup strptime school "a1"
             "mrodriguez" "M" "2099-01-01" (Some "01/12/2098")); [reflexivity|].
    right. exists "01/12/2098". split; [reflexivity|]. split; [discriminate|].
    reflexivity.
Defined.

(** C9. A successful [update_announcement] with no start date given
    rewrites the first announcement of that identity: its message and
    expiration date are the supplied ones, its start date, identity and
    other fields are as before, and nothing else in the store changes. *)
Theorem update_announcement_keeps_start_date
    db announcement_id username message expiration_date start_date db' doc :
  truthy start_date = false →
  update_announcement db announcement_id username message expiration_date
    start_date = (db', Ok (AnnouncementBody doc)) →
  ∃ old l1 l2,
    announcements_collection db = l1 ++ old :: l2 ∧
    find_one ann_id announcement_id l1 = None ∧
    ann_id old = announcement_id ∧
    announcements_collection db' = l1 ++ doc :: l2 ∧
    activities_collection db' = activities_collection db ∧
    teachers_collection db' = teachers_collection db ∧
    ann_start_date doc = ann_start_date old ∧
    ann_message doc = message ∧
    ann_expiration_date doc = expiration_date ∧
    ann_id doc = ann_id old ∧
    ann_fields doc = ann_fields old.
Proof.
  intros Hsd Hr.
  destruct (update_announcement_outcome db announcement_id username message
              expiration_date start_date)
    as [[_ Herr]|(old & l1 & l2 & _ & _ & Hc & Hid & Hl1 & Heq)].
  - rewrite Hr in Herr. simpl in Herr. unfold error_status in Herr. lia.
  - simpl in Heq. rewrite Hr in Heq. injection Heq as -> ->.
    rewrite given_falsy by done. by exists old, l1, l2.
Qed.

Lemma update_announcement_keeps_start_date_witness :
  ∃ old l1 l2,
    announcements_collection school = l1 ++ old :: l2 ∧
    find_one ann_id "a1" l1 = None ∧
    ann_id old = "a1" ∧
    announcements_collection
      (update_announcement school "a1" "mrodriguez" "Hello" "2100-06-30" None).1
      = l1 ++
        {| ann_id := "a1"; ann_message := "Hello";
           ann_expiration_date := "2100-06-30";
           ann_start_date := Some "2098-12-01";
           ann_fields := [("author", "principal")] |} :: l2 ∧
    activities_collection
      (update_announcement school "a1" "mrodriguez" "Hello" "2100-06-30" None).1
      = activities_collection school ∧
    teachers_collection
      (update_announcement school "a1" "mrodriguez" "Hello" "2100-06-30" None).1
      = teachers_collection school ∧
    Some "2098-12-01" = ann_start_date old ∧
    "Hello" = "Hello" ∧
    "2100-06-30" = "2100-06-30" ∧
    "a1" = ann_id old ∧
    [("author", "principal")] = ann_fields old.
Proof.
  apply (update_announcement_keeps_start_date school "a1" "mrodriguez" "Hello"
           "2100-06-30" None); reflexivity.
Defined.

(** C2. [create_announcement] refuses an empty message with 400;
    [update_announcement] has no such check: with an empty message, a
    date that parses and an existing identity it stores the empty message
    and succeeds.  (An empty expiration date is refused by both, by the
    date parser.) *)
Example update_announcement_accepts_empty_message :
  create_announcement school "a2" "mrodriguez" "" "2099-01-01" None =
    (school, HTTPException 400 "Message and expiration date required") ∧
  update_announcement school "a1" "mrodriguez" "" "2099-01-01" None =
    (set_announcements school
       [ {| ann_id := "a1"; ann_message := "";
            ann_expiration_date := "2099-01-01";
            ann_start_date := Some "2098-12-01";
            ann_fields := [("author", "principal")] |} ],
     Ok (AnnouncementBody
       {| ann_id := "a1"; ann_message := "";
          ann_expiration_date := "2099-01-01";
          ann_start_date := Some "2098-12-01";
          ann_fields := [("author", "principal")] |})) ∧
  (∀ db i username message start_date,
     is_authenticated db username = true →
     update_announcement db i username message "" start_date =
       (db, HTTPException 400 "Invalid date format (YYYY-MM-DD)")).
Proof.
  split; [reflexivity|]. split; [reflexivity|].
  intros db i username message start_date Hauth.
  unfold update_announcement. by rewrite Hauth.
Qed.

(** ** Failures leave the store alone *)

Lemma signup_error_unchanged db n e tu :
  error_status (status (signup_for_activity db n e tu).2) →
  (signup_for_activity db n e tu).1 = db.
Proof.
  destruct (signup_outcome db n e tu) as [[? _]|(a & l1 & l2 & H)]; [done|].
  destruct H as (_ & _ & _ & _ & _ & ->). unfold error_status. simpl. lia.
Qed.

Lemma unregister_error_unchanged db n e tu :
  error_status (status (unregister_from_activity db n e tu).2) →
  (unregister_from_activity db n e tu).1 = db.
Proof.
  destruct (unregister_outcome db n e tu) as [[? _]|(a & l1 & l2 & H)]; [done|].
  destruct H as (_ & _ & _ & _ & _ & ->). unfold error_status. simpl. lia.
Qed.

(** C4. Whenever a request is answered 400, 401 or 404 the store
    (activities, teachers, announcements) is as it was before the request;
    and every request leaves the store as it was or changes one document
    of one collection. *)
Theorem errors_leave_store_unchanged db req :
  (error_status (status (handle db req).2) → (handle db req).1 = db) ∧
  one_mutation db (handle db req).1.
Proof.
  destruct req as [day st et| |oid u m ex sd|i u m ex sd|i u| |n e tu|n e tu];
    simpl.
  - split; [done|by apply no_mutation].
  - split; [done|by apply no_mutation].
  - destruct (create_announcement_outcome db oid u m ex sd)
      as [[Hdb _]|(doc & _ & _ & _ & _ & Hr)]; simpl in *.
    + split; [done|by apply no_mutation].
    + rewrite Hr. simpl. split; [unfold error_status; lia|].
      by apply (announcement_inserted _ _ doc).
  - destruct (update_announcement_outcome db i u m ex sd)
      as [[Hdb _]|(old & l1 & l2 & _ & _ & Hc & _ & _ & Hr)]; simpl in *.
    + split; [done|by apply no_mutation].
    + rewrite Hr. simpl. split; [unfold error_status; lia|].
      by apply (announcement_rewritten _ _ l1 old
                  (set_announcement_fields m ex (given sd) old) l2).
  - destruct (delete_announcement_outcome db i u)
      as [[Hdb _]|(old & l1 & l2 & _ & Hc & _ & _ & Hr)]; simpl in *.
    + split; [done|by apply no_mutation].
    + rewrite Hr. simpl. split; [unfold error_status; lia|].
      by apply (announcement_removed _ _ l1 old l2).
  - split; [done|by apply no_mutation].
  - split; [apply signup_error_unchanged|].
    destruct (signup_outcome db n e tu)
      as [[Hdb _]|(a & l1 & l2 & _ & _ & _ & Hc & _ & ->)].
    + by apply no_mutation.
    + by apply (activity_rewritten _ _ l1 a (push_participant e a) l2).
  - split; [apply unregister_error_unchanged|].
    destruct (unregister_outcome db n e tu)
      as [[Hdb _]|(a & l1 & l2 & _ & _ & _ & Hc & _ & ->)].
    + by apply no_mutation.
    + by apply (activity_rewritten _ _ l1 a (pull_participant e a) l2).
Qed.

Lemma errors_leave_store_unchanged_witness :
  (handle school
     (POST_unregister "Art Club" "amy@mergington.edu" (Some "mrodriguez"))).1
  = school.
Proof.
  apply (errors_leave_store_unchanged school
           (POST_unregister "Art Club" "amy@mergington.edu" (Some "mrodriguez"))).
  vm_compute. left. reflexivity.
Defined.

(** ** Listing *)

Section Dict.
Context {K V : Type} `{EqDecision K}.

Lemma dict_get_set_eq (k : K) (v : V) (d : list (K * V)) :
  dict_get k (dict_set k v d) = Some v.
Proof.
  induction d as [|[k' v'] d IH]; simpl.
  - by rewrite decide_True.
  - destruct (decide (k' = k)) as [->|Hne]; simpl.
    + by rewrite decide_True.
    + by rewrite decide_False.
Qed.

Lemma dict_get_set_ne (k k0 : K) (v : V) (d : list (K * V)) :
  k ≠ k0 → dict_get k0 (dict_set k v d) = dict_get k0 d.
Proof.
  intros Hne. induction d as [|[k' v'] d IH]; simpl.
  - by rewrite decide_False.
  - destruct (decide (k' = k)) as [->|Hk]; simpl.
    + by rewrite !decide_False.
    + destruct (decide (k' = k0)); [done|apply IH].
Qed.

Lemma dict_set_elem (k k0 : K) (v v0 : V) (d : list (K * V)) :
  (k0, v0) ∈ dict_set k v d → (k0, v0) = (k, v) ∨ (k0, v0) ∈ d.
Proof.
  induction d as [|[k' v'] d IH]; simpl.
  - intros ->%list_elem_of_singleton. by left.
  - destruct (decide (k' = k)) as [->|Hk].
    + intros [->|Hin]%elem_of_cons; [by left|]. right. by right.
    + intros [->|Hin]%elem_of_cons; [right; by left|].
      destruct (IH Hin) as [?|?]; [by left|]. right. by right.
Qed.

Lemma dict_get_elem (k : K) (v : V) (d : list (K * V)) :
  dict_get k d = Some v → (k, v) ∈ d.
Proof.
  induction d as [|[k' v'] d IH]; simpl; [done|].
  destruct (decide (k' = k)) as [->|Hk].
  - intros [= ->]. by left.
  - intros Hd. right. by apply IH.
Qed.
End Dict.

Lemma list_activities_scan db day start_time end_time :
  list_activities db day start_time end_time =
  fold_left (scan_step day start_time end_time) (activities_collection db) [].
Proof. done. Qed.

Lemma scan_ext day st et st' et' (l : list Activity) acc :
  (∀ a, time_filter st et a = time_filter st' et' a) →
  fold_left (scan_step day st et) l acc = fold_left (scan_step day st' et') l acc.
Proof.
  intros Hext. revert acc. induction l as [|x l IH]; intros acc; simpl; [done|].
  unfold scan_step at 2 4. by rewrite Hext, IH.
Qed.

(** A key no scanned activity has keeps its entry. *)
Lemma scan_other_key day st et (l : list Activity) acc k :
  k ∉ map activity_key l →
  dict_get k (fold_left (scan_step day st et) l acc) = dict_get k acc.
Proof.
  revert acc. induction l as [|x l IH]; intros acc Hk; simpl; [done|].
  simpl in Hk. apply not_elem_of_cons in Hk as [Hx Hl].
  rewrite IH by done. unfold scan_step.
  destruct (day_filter day x && time_filter st et x); [|done].
  by apply dict_get_set_ne.
Qed.

(** With distinct keys, the entry of a scanned activity is decided by the
    two filters on that activity. *)
Lemma scan_own_key day st et (l : list Activity) acc a :
  NoDup (map activity_key l) → a ∈ l →
  dict_get (activity_key a) (fold_left (scan_step day st et) l acc) =
    if day_filter day a && time_filter st et a then Some (details a)
    else dict_get (activity_key a) acc.
Proof.
  revert acc. induction l as [|x l IH]; intros acc Hnd Ha; simpl.
  - by apply elem_of_nil in Ha.
  - simpl in Hnd. apply NoDup_cons in Hnd as [Hx Hnd].
    destruct (decide (a ∈ l)) as [Hal|Hal].
    + rewrite IH by done.
      destruct (day_filter day a && time_filter st et a); [done|].
      unfold scan_step.
      destruct (day_filter day x && time_filter st et x); [|done].
      apply dict_get_set_ne. intros Heq. apply Hx. rewrite Heq.
      by apply list_elem_of_fmap_2.
    + apply elem_of_cons in Ha as [->|?]; [|done].
      rewrite scan_other_key by done. unfold scan_step.
      destruct (day_filter day x && time_filter st et x); [|done].
      apply dict_get_set_eq.
Qed.

(** Every entry of the result was put there for an activity that passed
    both filters. *)
Lemma scan_entries day st et (l : list Activity) acc k v :
  (k, v) ∈ fold_left (scan_step day st et) l acc →
  (k, v) ∈ acc ∨
  ∃ a, a ∈ l ∧ k = activity_key a ∧ v = details a ∧
       day_filter day a = true ∧ time_filter st et a = true.
Proof.
  revert acc. induction l as [|x l IH]; intros acc; simpl; [by left|].
  intros [Hacc|(a & Ha & ?)]%IH.
  - unfold scan_step in Hacc.
    destruct (day_filter day x && time_filter st et x) eqn:Hkeep; [|by left].
    apply dict_set_elem in Hacc as [[= -> ->]|?]; [|by left].
    right. exists x. apply andb_true_iff in Hkeep as [? ?].
    split; [by left|done].
  - right. exists a. split; [by right|done].
Qed.

Lemma day_filter_given d a :
  d ≠ "" → day_filter (Some d) a = true ↔ on_day d (details a).
Proof.
  intros Hd. unfold day_filter, on_day. apply truthy_Some in Hd. rewrite Hd.
  destruct (schedule_details (details a)) as [sd|].
  - destruct (sd_is_empty sd) eqn:Hempty.
    + rewrite py_in_true. split; [by intros ?%elem_of_nil|].
      intros (sd' & ds & [= <-] & Hds & _).
      unfold sd_is_empty in Hempty. by rewrite Hds in Hempty.
    + rewrite py_in_true. destruct (sd_days sd) as [ds|] eqn:Hds; simpl.
      * split; [intros ?; by exists sd, ds|].
        intros (sd' & ds' & [= <-] & Hds' & ?). congruence.
      * split; [by intros ?%elem_of_nil|].
        intros (sd' & ds' & [= <-] & Hds' & _). congruence.
  - rewrite py_in_true. split; [by intros ?%elem_of_nil|].
    by intros (sd' & ds' & [=] & _).
Qed.

Lemma day_filter_absent day a : truthy day = false → day_filter day a = true.
Proof. unfold day_filter. destruct day; [|done]. by intros ->. Qed.

Lemma time_filter_given st et a :
  st ≠ "" → et ≠ "" →
  time_filter (Some st) (Some et) a = true ↔ in_time_range st et (details a).
Proof.
  intros Hst Het. unfold time_filter, in_time_range.
  apply truthy_Some in Hst, Het. rewrite Hst, Het. simpl.
  destruct (schedule_details (details a)) as [sd|].
  2: { split; [done|]. intros (sd' & s & e & Hsd & _). done. }
  destruct (sd_is_empty sd) eqn:Hempty.
  { split; [done|]. intros (sd' & s & e & [= <-] & Hs & _).
    unfold sd_is_empty in Hempty. rewrite Hs in Hempty.
    by destruct (sd_days sd). }
  destruct (sd_start_time sd) as [s|] eqn:Hs.
  2: { split; [done|]. intros (sd' & s & e & [= <-] & Hs' & _). congruence. }
  destruct (sd_end_time sd) as [e|] eqn:He.
  2: { split; [done|].
       intros (sd' & s' & e & [= <-] & _ & _ & He' & _). congruence. }
  destruct (String.eqb s "") eqn:Hse; simpl.
  { apply String.eqb_eq in Hse as ->. split; [done|].
    intros (sd' & s' & e' & [= <-] & Hs' & Hne & _). congruence. }
  destruct (String.eqb e "") eqn:Hee; simpl.
  { apply String.eqb_eq in Hee as ->. split; [done|].
    intros (sd' & s' & e' & [= <-] & _ & _ & He' & Hne & _). congruence. }
  apply String.eqb_neq in Hse, Hee.
  destruct (str_lt s st) eqn:H1; simpl.
  { split; [done|].
    intros (sd' & s' & e' & [= <-] & Hs' & _ & _ & _ & Hle & _).
    assert (s' = s) as -> by congruence.
    apply str_lt_false_le in Hle. congruence. }
  destruct (str_lt et e) eqn:H2; simpl.
  { split; [done|].
    intros (sd' & s' & e' & [= <-] & _ & _ & He' & _ & _ & Hle).
    assert (e' = e) as -> by congruence.
    apply str_lt_false_le in Hle. congruence. }
  split; [|done]. intros _. exists sd, s, e.
  apply str_lt_false_le in H1, H2. done.
Qed.

Lemma time_filter_absent st et a :
  truthy st = false ∨ truthy et = false → time_filter st et a = true.
Proof.
  unfold time_filter. destruct st as [s|], et as [e|]; try done.
  intros [->| ->]; [done|]. by rewrite andb_false_r.
Qed.

Lemma day_filter_ok day a : day_filter day a = true ↔ day_ok day (details a).
Proof.
  unfold day_ok. destruct day as [d|].
  - destruct (decide (d = "")) as [->|Hd].
    + split; [by intros _ d' [= <-]|done].
    + rewrite day_filter_given by done. split.
      * by intros ? d' [= <-] _.
      * intros Hall. by apply Hall.
  - split; [by intros _ d [=]|done].
Qed.

(** Identities are distinct in a collection; when none is empty the keys
    of the result are the identities. *)
Lemma distinct_ids_distinct_keys (c : list Activity) :
  Forall (λ a, activity_id a ≠ "") c →
  NoDup (map activity_id c) → NoDup (map activity_key c).
Proof.
  intros Hne Hnd.
  assert (map activity_key c = map Some (map activity_id c)) as ->.
  { clear Hnd. induction Hne as [|x l Hx _ IH]; simpl; [done|].
    rewrite IH. f_equal. unfold activity_key, py_or.
    apply String.eqb_neq in Hx. by rewrite Hx. }
  by apply (NoDup_fmap_2 Some).
Qed.

(** C5. With both time bounds given and distinct keys in the collection,
    the result of [list_activities] has the entry of an activity exactly
    when its [schedule_details] has a start time and an end time, both
    there and not empty, the start time is not below [start_time] and the
    end time not above [end_time] in the order of strings, and it passes
    the day filter if a day is given; when it does not, the result has no
    entry under its key. *)
Theorem list_activities_time_range db day start_time end_time a :
  start_time ≠ "" → end_time ≠ "" →
  NoDup (map activity_key (activities_collection db)) →
  a ∈ activities_collection db →
  let results := list_activities db day (Some start_time) (Some end_time) in
  let included :=
    in_time_range start_time end_time (details a) ∧ day_ok day (details a) in
  (dict_get (activity_key a) results = Some (details a) ↔ included) ∧
  (¬ included → dict_get (activity_key a) results = None).
Proof.
  intros Hst Het Hnd Ha results included. subst results included.
  rewrite list_activities_scan, scan_own_key by done.
  rewrite <- day_filter_ok, <- (time_filter_given start_time end_time a) by done.
  change (dict_get (activity_key a) []) with (@None ActivityDetails).
  destruct (day_filter day a), (time_filter _ _ a); cbn [andb];
    intuition congruence.
Qed.

Lemma school_keys_distinct :
  NoDup (map activity_key (activities_collection school)).
Proof.
  apply (bool_decide_unpack
           (NoDup (map activity_key (activities_collection school)))).
  vm_compute. exact I.
Defined.

Lemma chess_in_school : chess ∈ activities_collection school.
Proof. left. Defined.

Lemma list_activities_time_range_witness :
  let results := list_activities school (Some "Monday") (Some "08:00") (Some "11:00") in
  let included :=
    in_time_range "08:00" "11:00" (details chess) ∧
    day_ok (Some "Monday") (details chess) in
  (dict_get (activity_key chess) results = Some (details chess) ↔ included) ∧
  (¬ included → dict_get (activity_key chess) results = None).
Proof.
  apply (list_activities_time_range school (Some "Monday") "08:00" "11:00" chess).
  - discriminate.
  - discriminate.
  - exact school_keys_distinct.
  - exact chess_in_school.
Defined.

(** C6. With only one time bound given (the other absent, or empty) the
    result of [list_activities] is the result with no time bound. *)
Theorem list_activities_one_bound db day t :
  list_activities db day (Some t) None = list_activities db day None None ∧
  list_activities db day None (Some t) = list_activities db day None None ∧
  list_activities db day (Some t) (Some "") = list_activities db day None None ∧
  list_activities db day (Some "") (Some t) = list_activities db day None None.
Proof.
  rewrite !list_activities_scan.
  repeat split; apply scan_ext; intros a;
    rewrite !time_filter_absent; try done; simpl; auto.
Qed.

(** C7. With a day given, every entry of the result of [list_activities]
    is the entry of an activity whose [schedule_details] has a [days] list
    holding exactly that string; an activity without [schedule_details]
    has no entry in the result. *)
Theorem list_activities_day_filter db day start_time end_time :
  day ≠ "" →
  let results := list_activities db (Some day) start_time end_time in
  (∀ k v, (k, v) ∈ results →
     on_day day v ∧
     ∃ a, a ∈ activities_collection db ∧ k = activity_key a ∧ v = details a) ∧
  (∀ a, a ∈ activities_collection db →
     schedule_details (details a) = None →
     (∀ k, (k, details a) ∉ results) ∧
     dict_get (activity_key a) results ≠ Some (details a)).
Proof.
  intros Hday results. subst results.
  assert (∀ k v, (k, v) ∈ list_activities db (Some day) start_time end_time →
            on_day day v ∧
            ∃ a, a ∈ activities_collection db ∧ k = activity_key a ∧
                 v = details a) as Hentries.
  { intros k v Hin. rewrite list_activities_scan in Hin.
    apply scan_entries in Hin as [Hin|(a & Ha & -> & -> & Hd & _)].
    - by apply elem_of_nil in Hin.
    - apply day_filter_given in Hd; [|done]. split; [done|]. by exists a. }
  split; [done|]. intros a Ha Hnone.
  assert (∀ k, (k, details a) ∉ list_activities db (Some day) start_time end_time)
    as Hout.
  { intros k Hin. apply Hentries in Hin as [(sd & ds & Hsd & _) _]. congruence. }
  split; [done|]. intros Hget%dict_get_elem. by apply Hout in Hget.
Qed.

Lemma list_activities_day_filter_witness :
  let results := list_activities school (Some "Monday") None None in
  (∀ k v, (k, v) ∈ results →
     on_day "Monday" v ∧
     ∃ a, a ∈ activities_collection school ∧ k = activity_key a ∧ v = details a) ∧
  (∀ a, a ∈ activities_collection school →
     schedule_details (details a) = None →
     (∀ k, (k, details a) ∉ results) ∧
     dict_get (activity_key a) results ≠ Some (details a)).
Proof.
  apply (list_activities_day_filter school "Monday" None None). discriminate.
Defined.

Example list_activities_monday :
  list_activities school (Some "Monday") None None =
    [(Some "Chess Club", details chess); (Some "Art Club", details art)].
Proof. reflexivity. Qed.

Example list_activities_day_is_case_sensitive :
  list_activities school (Some "monday") None None = [].
Proof. reflexivity. Qed.

Example list_activities_morning :
  list_activities school None (Some "08:00") (Some "11:00") =
    [(Some "Chess Club", details chess)] ∧
  list_activities school None (Some "09:30") (Some "11:00") = [] ∧
  list_activities school None (Some "08:00") (Some "09:30") = [].
Proof. by repeat split. Qed.

(** ** Available days *)

Lemma unwind_days_elem (c : list Activity) (d : string) :
  d ∈ unwind_days c ↔
  ∃ a sd ds, a ∈ c ∧ schedule_details (details a) = Some sd ∧
             sd_days sd = Some ds ∧ d ∈ ds.
Proof.
  unfold unwind_days. induction c as [|x c IH]; simpl.
  - split; [by intros ?%elem_of_nil|].
    by intros (a & sd & ds & ?%elem_of_nil & _).
  - rewrite elem_of_app, IH. split.
    + intros [Hx|(a & sd & ds & Ha & ?)].
      * destruct (schedule_details (details x)) as [sd|] eqn:Hsd;
          [|by apply elem_of_nil in Hx].
        destruct (sd_days sd) as [ds|] eqn:Hds; simpl in Hx;
          [|by apply elem_of_nil in Hx].
        exists x, sd, ds. split; [by left|done].
      * exists a, sd, ds. split; [by right|done].
    + intros (a & sd & ds & [->|Ha]%elem_of_cons & Hsd & Hds & Hd).
      * left. by rewrite Hsd, Hds.
      * right. by exists a, sd, ds.
Qed.

Lemma strictly_sorted (l : list string) :
  StronglySorted str_le l → NoDup l →
  StronglySorted (λ x y, str_lt x y = true) l.
Proof.
  induction 1 as [|x l Hs IH Hall]; intros Hnd; [constructor|].
  apply NoDup_cons in Hnd as [Hx Hnd]. constructor; [by apply IH|].
  apply Forall_forall. intros y Hy. apply str_le_ne_lt.
  - rewrite Forall_forall in Hall. by apply Hall.
  - by intros ->.
Qed.

(** C8. [get_available_days] returns the days of the [schedule_details]
    of all activities, each once, in strictly ascending order of strings;
    an activity without schedule details, or without days in them, adds
    nothing. *)
Theorem get_available_days_sorted_union db :
  let days := get_available_days db in
  NoDup days ∧
  StronglySorted (λ x y, str_lt x y = true) days ∧
  (∀ d, d ∈ days ↔
        ∃ a sd ds, a ∈ activities_collection db ∧
                   schedule_details (details a) = Some sd ∧
                   sd_days sd = Some ds ∧ d ∈ ds).
Proof.
  intros days. subst days.
  unfold get_available_days, aggregate_days, sort_ascending, group_by_value.
  set (vs := remove_dups (unwind_days (activities_collection db))).
  assert (NoDup (merge_sort str_le vs)) as Hnd.
  { rewrite merge_sort_Permutation. apply NoDup_remove_dups. }
  split; [done|]. split.
  - apply strictly_sorted; [|done]. apply StronglySorted_merge_sort; apply _.
  - intros d. rewrite merge_sort_Permutation. unfold vs.
    rewrite elem_of_remove_dups. apply unwind_days_elem.
Qed.

Example get_available_days_spec_example :
  get_available_days
    {| activities_collection :=
         [ {| activity_id := "A";
              details :=
                {| name := None;
                   schedule_details :=
                     Some {| sd_days := Some ["Friday"; "Monday"];
                             sd_start_time := None; sd_end_time := None |};
                   participants := []; activity_fields := [] |} |};
           {| activity_id := "B";
              details :=
                {| name := None;
                   schedule_details :=
                     Some {| sd_days := Some ["Monday"];
                             sd_start_time := None; sd_end_time := None |};
                   participants := []; activity_fields := [] |} |} ];
       teachers_collection := [];
       announcements_collection := [] |}
  = ["Friday"; "Monday"].
Proof. reflexivity. Qed.

(** * Further properties of the handlers *)

(** ** The roster handlers at a known position *)

Lemma signup_at db n e tu l1 a l2 :
  teacher_known db tu →
  activities_collection db = l1 ++ a :: l2 →
  activity_id a = n → find_one activity_id n l1 = None →
  e ∉ participants (details a) →
  signup_for_activity db n e tu =
    (set_activities db (l1 ++ push_participant e a :: l2),
     Ok (MessageBody ("Signed up " ++ e ++ " for " ++ n)%string)).
Proof.
  intros Hk Hc Hid Hl1 He.
  assert (find_one activity_id n (activities_collection db) = Some a) as Ha.
  { apply find_one_Some. by exists l1, l2. }
  unfold signup_for_activity. rewrite signup_known_teacher, Ha by done.
  apply py_in_false in He. rewrite He, Hc, update_one_Some by done.
  destruct (decide _) as [Heq|_]; [|done].
  by apply push_participant_changes in Heq.
Qed.

Lemma unregister_at db n e tu l1 a l2 :
  teacher_known db tu →
  activities_collection db = l1 ++ a :: l2 →
  activity_id a = n → find_one activity_id n l1 = None →
  e ∈ participants (details a) →
  unregister_from_activity db n e tu =
    (set_activities db (l1 ++ pull_participant e a :: l2),
     Ok (MessageBody ("Unregistered " ++ e ++ " from " ++ n)%string)).
Proof.
  intros Hk Hc Hid Hl1 He.
  assert (find_one activity_id n (activities_collection db) = Some a) as Ha.
  { apply find_one_Some. by exists l1, l2. }
  unfold unregister_from_activity. rewrite unregister_known_teacher, Ha by done.
  pose proof He as He'. apply py_in_true in He'. rewrite He', Hc. simpl.
  rewrite update_one_Some by done.
  destruct (decide _) as [Heq|_]; [|done].
  by apply pull_participant_changes in Heq.
Qed.

Lemma teacher_known_set_activities db c tu :
  teacher_known (set_activities db c) tu ↔ teacher_known db tu.
Proof. done. Qed.

Lemma set_activities_twice db c c' :
  set_activities (set_activities db c) c' = set_activities db c'.
Proof. done. Qed.

Lemma pull_not_in (e : string) (ps : list string) :
  e ∉ filter (λ p, p ≠ e) ps.
Proof. intros [Hne _]%list_elem_of_filter. by apply Hne. Qed.

Lemma pull_absent (e : string) (ps : list string) :
  e ∉ ps → filter (λ p, p ≠ e) ps = ps.
Proof.
  induction ps as [|p ps IH]; [done|].
  intros [Hp Hps]%not_elem_of_cons.
  rewrite filter_cons_True by done. by rewrite IH.
Qed.

Lemma pull_push (e : string) (a : Activity) :
  e ∉ participants (details a) → pull_participant e (push_participant e a) = a.
Proof.
  intros He. destruct a as [i [nm sd ps fs]]. unfold pull_participant. simpl in *.
  rewrite filter_app, pull_absent by done.
  rewrite filter_cons_False, filter_nil by (by intros Hne; apply Hne).
  by rewrite app_nil_r.
Qed.

(** X1. [unregister_from_activity] answers 401 when no teacher username
    is given or no teacher record has it; otherwise 404 when no activity
    has the name; otherwise 400 when the email is not among the
    participants; otherwise it runs the update, and answers 500 exactly
    when the update reports no modified document.  On the store the update
    removes the email from the participants of that activity, keeps the
    order of the others, and the call succeeds. *)
Theorem unregister_from_activity_precedence :
  (∀ upd db activity_name email teacher_username,
     let r := unregister_from_activity_on upd db activity_name email
                teacher_username in
     let found := find_one activity_id activity_name (activities_collection db) in
     let u := upd activity_name (pull_participant email)
                (activities_collection db) in
     (¬ teacher_known db teacher_username → r.1 = db ∧ status r.2 = 401) ∧
     (teacher_known db teacher_username → found = None →
        r.1 = db ∧ status r.2 = 404) ∧
     (∀ a, teacher_known db teacher_username → found = Some a →
        email ∉ participants (details a) → r.1 = db ∧ status r.2 = 400) ∧
     (∀ a, teacher_known db teacher_username → found = Some a →
        email ∈ participants (details a) →
        r.1 = set_activities db u.1 ∧
        (modified_count u.2 = 0 → status r.2 = 500) ∧
        (modified_count u.2 ≠ 0 →
           r.2 = Ok (MessageBody
             ("Unregistered " ++ email ++ " from " ++ activity_name)%string)))) ∧
  (∀ db activity_name email teacher_username a,
     teacher_known db teacher_username →
     find_one activity_id activity_name (activities_collection db) = Some a →
     email ∈ participants (details a) →
     ∃ l1 l2 a',
       activities_collection db = l1 ++ a :: l2 ∧
       find_one activity_id activity_name l1 = None ∧
       activity_frame a' = activity_frame a ∧
       participants (details a') =
         filter (λ p, p ≠ email) (participants (details a)) ∧
       (email ∉ participants (details a')) ∧
       unregister_from_activity db activity_name email teacher_username =
         (set_activities db (l1 ++ a' :: l2),
          Ok (MessageBody
            ("Unregistered " ++ email ++ " from " ++ activity_name)%string))).
Proof.
  split.
  - intros upd db n e tu r found u. subst r found u.
    split; [|split; [|split]].
    + intros Hno.
      by destruct (unregister_unknown_teacher upd db n e tu Hno) as [d ->].
    + intros Hk Hf. by rewrite unregister_known_teacher, Hf.
    + intros a Hk Hf He. rewrite unregister_known_teacher, Hf by done.
      apply py_in_false in He. by rewrite He.
    + intros a Hk Hf He. rewrite unregister_known_teacher, Hf by done.
      apply py_in_true in He. rewrite He. simpl.
      destruct (upd n _ _) as [c res]. simpl.
      destruct (modified_count res =? 0) eqn:Hm; simpl.
      * apply Z.eqb_eq in Hm. done.
      * apply Z.eqb_neq in Hm. done.
  - intros db n e tu a Hk Hf He.
    destruct (unregister_removes db n e tu a Hk Hf He) as (l1 & l2 & ? & ? & ?).
    exists l1, l2, (pull_participant e a).
    repeat (split; [done|]). split; [apply pull_not_in|done].
Qed.

Lemma unregister_from_activity_precedence_witness :
  ∃ l1 l2 a',
    activities_collection school = l1 ++ chess :: l2 ∧
    find_one activity_id "Chess Club" l1 = None ∧
    activity_frame a' = activity_frame chess ∧
    participants (details a') =
      filter (λ p, p ≠ "michael@mergington.edu") (participants (details chess)) ∧
    ("michael@mergington.edu" ∉ participants (details a')) ∧
    unregister_from_activity school "Chess Club" "michael@mergington.edu"
      (Some "mrodriguez") =
      (set_activities school (l1 ++ a' :: l2),
       Ok (MessageBody "Unregistered michael@mergington.edu from Chess Club")).
Proof.
  apply (proj2 unregister_from_activity_precedence school "Chess Club"
           "michael@mergington.edu" (Some "mrodriguez") chess).
  - exact school_teacher_known.
  - reflexivity.
  - left.
Defined.

(** X2. A successful signup followed by an unregister of the same email
    from the same activity, by any known teacher, succeeds and gives back
    the store as it was before the signup. *)
Theorem signup_then_unregister db activity_name email teacher_username db1 b
    teacher2 :
  signup_for_activity db activity_name email teacher_username = (db1, Ok b) →
  teacher_known db1 teacher2 →
  unregister_from_activity db1 activity_name email teacher2 =
    (db,
     Ok (MessageBody
       ("Unregistered " ++ email ++ " from " ++ activity_name)%string)).
Proof.
  intros Hfirst Hk2.
  destruct (signup_outcome db activity_name email teacher_username)
    as [[_ Hno]|(a & l1 & l2 & _ & Ha & He & Hc & Hl1 & Heq)].
  - rewrite Hfirst in Hno. by destruct (Hno b).
  - rewrite Heq in Hfirst. injection Hfirst as <- _.
    apply find_one_elem in Ha as [_ Hid].
    rewrite (unregister_at _ activity_name email teacher2 l1
               (push_participant email a) l2); try done.
    + rewrite pull_push, set_activities_twice by done.
      by rewrite <- Hc, set_activities_same.
    + simpl. apply elem_of_app. right. left.
Qed.

Lemma signup_then_unregister_witness :
  unregister_from_activity
    (signup_for_activity school "Art Club" "amy@mergington.edu"
       (Some "mrodriguez")).1
    "Art Club" "amy@mergington.edu" (Some "mrodriguez") =
    (school, Ok (MessageBody "Unregistered amy@mergington.edu from Art Club")).
Proof.
  apply (signup_then_unregister school "Art Club" "amy@mergington.edu"
           (Some "mrodriguez") _
           (MessageBody "Signed up amy@mergington.edu for Art Club")
           (Some "mrodriguez")).
  - reflexivity.
  - exact school_teacher_known.
Defined.

(** X3. After a successful unregister the email is in no place of that
    activity's participants: a second unregister of it by a known teacher
    answers 400 and leaves the store as it is, also when the list held
    the email more than once. *)
Theorem unregister_twice db activity_name email teacher_username db1 b teacher2 :
  unregister_from_activity db activity_name email teacher_username = (db1, Ok b) →
  teacher_known db1 teacher2 →
  unregister_from_activity db1 activity_name email teacher2 =
    (db1, HTTPException 400 "Not registered for this activity").
Proof.
  intros Hfirst Hk2.
  destruct (unregister_outcome db activity_name email teacher_username)
    as [[_ Hno]|(a & l1 & l2 & _ & Ha & He & Hc & Hl1 & Heq)].
  - rewrite Hfirst in Hno. by destruct (Hno b).
  - rewrite Heq in Hfirst. injection Hfirst as <- _.
    apply find_one_elem in Ha as [_ Hid].
    unfold unregister_from_activity.
    rewrite unregister_known_teacher by done.
    assert (find_one activity_id activity_name
              (activities_collection
                 (set_activities db (l1 ++ pull_participant email a :: l2)))
            = Some (pull_participant email a)) as ->.
    { apply find_one_Some. by exists l1, l2. }
    assert (py_in email (participants (details (pull_participant email a)))
            = false) as ->; [|done].
    apply py_in_false. simpl. apply pull_not_in.
Qed.

Lemma unregister_twice_witness :
  unregister_from_activity
    (unregister_from_activity school "Chess Club" "michael@mergington.edu"
       (Some "mrodriguez")).1
    "Chess Club" "michael@mergington.edu" (Some "mrodriguez") =
    ((unregister_from_activity school "Chess Club" "michael@mergington.edu"
        (Some "mrodriguez")).1,
     HTTPException 400 "Not registered for this activity").
Proof.
  apply (unregister_twice school "Chess Club" "michael@mergington.edu"
           (Some "mrodriguez") _
           (MessageBody "Unregistered michael@mergington.edu from Chess Club")
           (Some "mrodriguez")).
  - reflexivity.
  - exact school_teacher_known.
Defined.

(** ** The announcement handlers at a known position *)

Lemma update_announcement_at db i username message expiration_date start_date
    l1 old l2 :
  is_authenticated db username = true →
  dates_parse expiration_date start_date = true →
  announcements_collection db = l1 ++ old :: l2 →
  ann_id old = i → find_one ann_id i l1 = None →
  update_announcement db i username message expiration_date start_date =
    (set_announcements db
       (l1 ++ set_announcement_fields message expiration_date
                (given start_date) old :: l2),
     Ok (AnnouncementBody
       (set_announcement_fields message expiration_date (given start_date) old))).
Proof.
  intros Hauth Hd Hc Hid Hl1. unfold update_announcement.
  rewrite Hauth, Hd, Hc, update_one_Some by done. simpl.
  set (new := set_announcement_fields _ _ _ old).
  assert (find_one ann_id i (l1 ++ new :: l2) = Some new) as ->; [|done].
  apply find_one_Some. by exists l1, l2.
Qed.

Lemma set_announcements_twice db c c' :
  set_announcements (set_announcements db c) c' = set_announcements db c'.
Proof. done. Qed.

Lemma set_announcement_fields_twice m ex g (a : Announcement) :
  set_announcement_fields m ex g (set_announcement_fields m ex g a) =
  set_announcement_fields m ex g a.
Proof. unfold set_announcement_fields. simpl. by destruct g. Qed.

(** Authentication is a lookup of the username among the teacher
    identities. *)
Lemma is_authenticated_spec db username :
  is_authenticated db username = true ↔
  ∃ t, t ∈ teachers_collection db ∧ teacher_id t = username.
Proof.
  unfold is_authenticated.
  destruct (find_one teacher_id username (teachers_collection db)) as [t|] eqn:Ht.
  - split; [|done]. intros _. exists t. by apply find_one_elem in Ht.
  - split; [done|]. intros (t & Hin & Hid).
    rewrite find_one_None in Ht. by destruct (Ht t Hin).
Qed.

Lemma find_one_app_None {D} (doc_id : D → string) i (l1 l2 : list D) :
  find_one doc_id i l1 = None → find_one doc_id i l2 = None →
  find_one doc_id i (l1 ++ l2) = None.
Proof.
  rewrite !find_one_None. intros H1 H2 d [?|?]%elem_of_app; eauto.
Qed.

(** X6. Where the announcement identities are distinct, a successful
    [delete_announcement] leaves no announcement of that identity: a
    lookup finds none, and a second delete by an authenticated user
    answers 404 and changes nothing. *)
Theorem delete_twice db announcement_id username db1 b username2 :
  NoDup (map ann_id (announcements_collection db)) →
  delete_announcement db announcement_id username = (db1, Ok b) →
  is_authenticated db1 username2 = true →
  find_one ann_id announcement_id (get_announcements db1) = None ∧
  delete_announcement db1 announcement_id username2 =
    (db1, HTTPException 404 "Announcement not found").
Proof.
  intros Hnd Hfirst Hauth2.
  destruct (delete_announcement_outcome db announcement_id username)
    as [[_ Herr]|(old & l1 & l2 & _ & Hc & Hid & Hl1 & Hr)]; simpl in *.
  - rewrite Hfirst in Herr. unfold error_status in Herr. simpl in Herr. lia.
  - rewrite Hr in Hfirst. injection Hfirst as <- _.
    assert (find_one ann_id announcement_id (l1 ++ l2) = None) as Hgone.
    { apply find_one_app_None; [done|]. apply find_one_None. intros d Hd Hdi.
      rewrite Hc, map_app in Hnd. simpl in Hnd.
      apply NoDup_app in Hnd as (_ & _ & Hnd).
      apply NoDup_cons in Hnd as [Hold _]. apply Hold.
      rewrite Hid, <- Hdi. by apply list_elem_of_fmap_2. }
    split; [done|]. unfold delete_announcement. rewrite Hauth2. simpl.
    rewrite delete_one_None by done. simpl.
    by rewrite set_announcements_twice.
Qed.

Lemma delete_twice_witness :
  find_one ann_id "a1"
    (get_announcements (delete_announcement school "a1" "mrodriguez").1) = None ∧
  delete_announcement (delete_announcement school "a1" "mrodriguez").1 "a1"
    "mrodriguez" =
    ((delete_announcement school "a1" "mrodriguez").1,
     HTTPException 404 "Announcement not found").
Proof.
  apply (delete_twice school "a1" "mrodriguez" _ (DeletedBody "a1") "mrodriguez").
  - apply (bool_decide_unpack
             (NoDup (map ann_id (announcements_collection school)))).
    vm_compute. exact I.
  - reflexivity.
  - reflexivity.
Defined.

(** X7. [update_announcement] is idempotent: after a successful update,
    the same request again succeeds, returns the same document and leaves
    the store as the first one left it. *)
Theorem update_announcement_idempotent
    db announcement_id username message expiration_date start_date db1 b :
  update_announcement db announcement_id username message expiration_date
    start_date = (db1, Ok b) →
  update_announcement db1 announcement_id username message expiration_date
    start_date = (db1, Ok b).
Proof.
  intros Hfirst.
  destruct (update_announcement_outcome db announcement_id username message
              expiration_date start_date)
    as [[_ Herr]|(old & l1 & l2 & Hauth & Hd & Hc & Hid & Hl1 & Hr)];
    simpl in *.
  - rewrite Hfirst in Herr. unfold error_status in Herr. simpl in Herr. lia.
  - rewrite Hr in Hfirst. injection Hfirst as <- <-.
    rewrite (update_announcement_at _ announcement_id username message
               expiration_date start_date l1
               (set_announcement_fields message expiration_date
                  (given start_date) old) l2); try done.
    by rewrite set_announcement_fields_twice, set_announcements_twice.
Qed.

Lemma update_announcement_idempotent_witness :
  update_announcement
    (update_announcement school "a1" "mrodriguez" "Hello" "2100-06-30" None).1
    "a1" "mrodriguez" "Hello" "2100-06-30" None =
  update_announcement school "a1" "mrodriguez" "Hello" "2100-06-30" None.
Proof.
  apply (update_announcement_idempotent school "a1" "mrodriguez" "Hello"
           "2100-06-30" None). reflexivity.
Defined.

(** X8. The document a successful [update_announcement] returns is the
    stored one: a lookup of that identity in the new store finds it; and
    when a start date is given, it is the start date of that document. *)
Theorem update_announcement_returns_stored
    db announcement_id username message expiration_date start_date db1 doc :
  update_announcement db announcement_id username message expiration_date
    start_date = (db1, Ok (AnnouncementBody doc)) →
  find_one ann_id announcement_id (get_announcements db1) = Some doc ∧
  (truthy start_date = true → ann_start_date doc = start_date).
Proof.
  intros Hfirst.
  destruct (update_announcement_outcome db announcement_id username message
              expiration_date start_date)
    as [[_ Herr]|(old & l1 & l2 & Hauth & Hd & Hc & Hid & Hl1 & Hr)];
    simpl in *.
  - rewrite Hfirst in Herr. unfold error_status in Herr. simpl in Herr. lia.
  - rewrite Hr in Hfirst. injection Hfirst as <- <-. split.
    + apply find_one_Some. by exists l1, l2.
    + intros Hsd. unfold given. rewrite Hsd. simpl.
      by destruct start_date.
Qed.

Lemma update_announcement_returns_stored_witness :
  find_one ann_id "a1"
    (get_announcements
       (update_announcement school "a1" "mrodriguez" "Hello" "2100-06-30"
          (Some "2100-01-01")).1) =
    Some {| ann_id := "a1"; ann_message := "Hello";
            ann_expiration_date := "2100-06-30";
            ann_start_date := Some "2100-01-01";
            ann_fields := [("author", "principal")] |} ∧
  (truthy (Some "2100-01-01") = true →
   ann_start_date
     {| ann_id := "a1"; ann_message := "Hello";
        ann_expiration_date := "2100-06-30";
        ann_start_date := Some "2100-01-01";
        ann_fields := [("author", "principal")] |} = Some "2100-01-01").
Proof.
  apply (update_announcement_returns_stored school "a1" "mrodriguez" "Hello"
           "2100-06-30" (Some "2100-01-01")). reflexivity.
Defined.

(** ** The listing as a whole *)

Lemma dict_set_keys {K V} `{EqDecision K} (k : K) (v : V) (d : list (K * V)) :
  map fst (dict_set k v d) =
    if decide (k ∈ map fst d) then map fst d else map fst d ++ [k].
Proof.
  induction d as [|[k' v'] d IH]; simpl; [done|].
  destruct (decide (k' = k)) as [->|Hne]; simpl.
  - rewrite decide_True; [done|left].
  - rewrite IH. destruct (decide (k ∈ map fst d)) as [Hin|Hout].
    + rewrite decide_True; [done|by right].
    + rewrite decide_False; [done|].
      intros [?|?]%elem_of_cons; [congruence|done].
Qed.

Lemma dict_set_fresh {K V} `{EqDecision K} (k : K) (v : V) (d : list (K * V)) :
  k ∉ map fst d → dict_set k v d = d ++ [(k, v)].
Proof.
  induction d as [|[k' v'] d IH]; simpl; [done|].
  intros [Hne Hout]%not_elem_of_cons.
  rewrite decide_False by done. by rewrite IH.
Qed.

Lemma dict_set_keys_distinct {K V} `{EqDecision K} (k : K) (v : V)
    (d : list (K * V)) :
  NoDup (map fst d) → NoDup (map fst (dict_set k v d)).
Proof.
  intros Hnd. rewrite dict_set_keys. destruct (decide _) as [|Hout]; [done|].
  apply NoDup_app. split; [done|]. split; [|apply NoDup_singleton].
  by intros x Hx ->%list_elem_of_singleton.
Qed.

Lemma scan_keys_distinct day st et (l : list Activity) acc :
  NoDup (map fst acc) → NoDup (map fst (fold_left (scan_step day st et) l acc)).
Proof.
  revert acc. induction l as [|x l IH]; intros acc Hacc; simpl; [done|].
  apply IH. unfold scan_step.
  destruct (day_filter day x && time_filter st et x); [|done].
  by apply dict_set_keys_distinct.
Qed.

Lemma scan_distinct day st et (l : list Activity) acc :
  NoDup (map fst acc ++ map activity_key l) →
  fold_left (scan_step day st et) l acc =
    acc ++ map entry (List.filter (kept day st et) l).
Proof.
  revert acc. induction l as [|x l IH]; intros acc Hnd; simpl.
  - by rewrite app_nil_r.
  - assert ((activity_key x ∉ map fst acc) ∧
            NoDup (map fst acc ++ map activity_key l)) as [Hx Hrest].
    { simpl in Hnd. apply NoDup_app in Hnd as (Hacc & Hdisj & Hl).
      apply NoDup_cons in Hl as [Hxl Hl]. split.
      - intros Hin. apply (Hdisj _ Hin). left.
      - apply NoDup_app. split; [done|]. split; [|done].
        intros k Hk Hkl. apply (Hdisj _ Hk). by right. }
    unfold scan_step at 2. unfold kept at 1.
    destruct (day_filter day x && time_filter st et x); simpl.
    + rewrite dict_set_fresh by done. rewrite IH.
      * by rewrite <- app_assoc.
      * rewrite map_app. simpl. rewrite <- app_assoc. simpl.
        simpl in Hnd. done.
    + by apply IH.
Qed.

(** X9. Where the keys of the activities are distinct, [list_activities]
    returns, in scan order, one entry (its key and the document without
    its identity) for every activity both filters keep, and nothing else;
    with no filter given that is one entry for every activity. *)
Theorem list_activities_is_filter db day start_time end_time :
  NoDup (map activity_key (activities_collection db)) →
  list_activities db day start_time end_time =
    map entry
      (List.filter (kept day start_time end_time) (activities_collection db)) ∧
  list_activities db None None None = map entry (activities_collection db).
Proof.
  intros Hnd. rewrite !list_activities_scan, !scan_distinct by done.
  split; [done|]. simpl. f_equal. clear Hnd.
  induction (activities_collection db) as [|x l IH]; simpl; [done|].
  by rewrite IH.
Qed.

Lemma list_activities_is_filter_witness :
  list_activities school (Some "Friday") None None =
    map entry
      (List.filter (kept (Some "Friday") None None) (activities_collection school)) ∧
  list_activities school None None None =
    map entry (activities_collection school).
Proof.
  apply (list_activities_is_filter school (Some "Friday") None None).
  exact school_keys_distinct.
Defined.

(** The entry under a key after the scan is the one of the last kept
    activity with that key, or the one the dict had. *)
Lemma scan_last_wins day st et (l : list Activity) acc k :
  dict_get k (fold_left (scan_step day st et) l acc) =
    match last (kept_with_key day st et k l) with
    | Some a => Some (details a)
    | None => dict_get k acc
    end.
Proof.
  revert acc. induction l as [|x l IH]; intros acc; simpl; [done|].
  rewrite IH. unfold kept_with_key in *. simpl. unfold scan_step.
  destruct (day_filter day x && time_filter st et x) eqn:Hx; simpl.
  - destruct (bool_decide (activity_key x = k)) eqn:Hk.
    + apply bool_decide_eq_true in Hk as <-. rewrite last_cons.
      destruct (last _); [done|]. apply dict_get_set_eq.
    + apply bool_decide_eq_false in Hk.
      destruct (last _); [done|]. by apply dict_get_set_ne.
  - done.
Qed.

(** X10. [list_activities] builds a dict, whatever the collection holds:
    its result never has a key twice, and where several activities that
    the filters keep have the same key, the entry under that key is the
    document of the last of them in scan order (a later activity replaces
    the entry of an earlier one); a key no kept activity has is not in
    the result. *)
Theorem list_activities_last_wins db day start_time end_time :
  let results := list_activities db day start_time end_time in
  NoDup (map fst results) ∧
  ∀ k, dict_get k results =
       details <$>
         last (kept_with_key day start_time end_time k (activities_collection db)).
Proof.
  intros results. subst results. split.
  - rewrite list_activities_scan. apply scan_keys_distinct. simpl.
    apply NoDup_nil_2.
  - intros k. rewrite list_activities_scan, scan_last_wins.
    by destruct (last _).
Qed.

(** Two activities under one key: the first has the empty identity and is
    named as the second is identified. *)
Example list_activities_collision :
  list_activities
    {| activities_collection :=
         [ {| activity_id := "";
              details :=
                {| name := Some "Art Club"; schedule_details := None;
                   participants := ["old@mergington.edu"];
                   activity_fields := [] |} |};
           walk; art ];
       teachers_collection := [];
       announcements_collection := [] |} None None None
  = [(Some "Art Club", details art); (Some "Walking", details walk)].
Proof. reflexivity. Qed.

Lemma scan_nonempty day st et (l : list Activity) acc :
  acc ≠ [] ∨ (∃ a, a ∈ l ∧ kept day st et a = true) →
  fold_left (scan_step day st et) l acc ≠ [].
Proof.
  revert acc. induction l as [|x l IH]; intros acc; simpl.
  - intros [?|(a & ?%elem_of_nil & _)]; done.
  - intros Hor. apply IH. unfold scan_step.
    destruct (day_filter day x && time_filter st et x) eqn:Hx.
    + left. destruct acc as [|[k v] acc]; simpl; [done|].
      by destruct (decide _).
    + destruct Hor as [?|(a & [->|Ha]%elem_of_cons & Hk)]; [by left| |].
      * unfold kept in Hk. congruence.
      * right. by exists a.
Qed.

Lemma get_available_days_elem db d :
  d ∈ get_available_days db ↔ d ∈ unwind_days (activities_collection db).
Proof.
  unfold get_available_days, aggregate_days, sort_ascending, group_by_value.
  by rewrite merge_sort_Permutation, elem_of_remove_dups.
Qed.

(** X11. The days [get_available_days] returns are the days for which the
    day filter of [list_activities] finds something: for a day that is
    not the empty string, it is among the available days exactly when the
    listing for that day, with no time bound, is not empty. *)
Theorem available_days_are_listed db day :
  day ≠ "" →
  day ∈ get_available_days db ↔ list_activities db (Some day) None None ≠ [].
Proof.
  intros Hday. rewrite get_available_days_elem, unwind_days_elem. split.
  - intros (a & sd & ds & Ha & Hsd & Hds & Hd).
    rewrite list_activities_scan. apply scan_nonempty. right. exists a.
    split; [done|]. unfold kept. rewrite time_filter_absent by by left.
    rewrite andb_true_r. apply day_filter_given; [done|]. by exists sd, ds.
  - intros Hne.
    destruct (list_activities db (Some day) None None) as [|[k v] l] eqn:Hl;
      [done|].
    assert ((k, v) ∈ list_activities db (Some day) None None) as Hin.
    { rewrite Hl. left. }
    rewrite list_activities_scan in Hin.
    apply scan_entries in Hin as [Hin|(a & Ha & -> & -> & Hd & _)].
    + by apply elem_of_nil in Hin.
    + apply day_filter_given in Hd as (sd & ds & ? & ? & ?); [|done].
      by exists a, sd, ds.
Qed.

Lemma available_days_are_listed_witness :
  "Friday" ∈ get_available_days school ↔
  list_activities school (Some "Friday") None None ≠ [].
Proof. apply (available_days_are_listed school "Friday"). discriminate. Defined.

(** ** What every request keeps *)

(** X12. The three announcement writers answer 401 exactly when no
    teacher record has the username as its identity, whatever else the
    request holds, and then leave the store as it was. *)
Theorem announcement_writers_authenticate
    db oid announcement_id username message expiration_date start_date :
  let known := ∃ t, t ∈ teachers_collection db ∧ teacher_id t = username in
  let c := create_announcement db oid username message expiration_date
             start_date in
  let u := update_announcement db announcement_id username message
             expiration_date start_date in
  let d := delete_announcement db announcement_id username in
  (status c.2 = 401 ↔ ¬ known) ∧ (status u.2 = 401 ↔ ¬ known) ∧
  (status d.2 = 401 ↔ ¬ known) ∧
  (¬ known → c.1 = db ∧ u.1 = db ∧ d.1 = db).
Proof.
  intros known c u d. subst known c u d.
  rewrite <- is_authenticated_spec.
  unfold create_announcement, update_announcement, delete_announcement.
  destruct (is_authenticated db username); simpl.
  - assert (∀ P : Prop, (P ↔ ¬ true = true) ↔ ¬ P) as Hiff by (intros; tauto).
    split; [|split; [|split]]; [| | |by intros []].
    + apply Hiff. destruct (_ || _); [simpl; lia|].
      destruct (negb _); simpl; lia.
    + apply Hiff. destruct (negb _); [simpl; lia|].
      destruct (update_one _ _ _ _) as [c r]. destruct (_ =? 0); [simpl; lia|].
      destruct (find_one _ _ _); simpl; lia.
    + apply Hiff. destruct (delete_one _ _ _) as [c n].
      destruct (_ =? 0); simpl; lia.
  - repeat split; try done; intros; discriminate.
Qed.

(** The teachers and the activities, participants apart, after a request. *)
Lemma handle_collections db req :
  teachers_collection (handle db req).1 = teachers_collection db ∧
  map activity_frame (activities_collection (handle db req).1) =
    map activity_frame (activities_collection db).
Proof.
  destruct req as [day st et| |oid u m ex sd|i u m ex sd|i u| |n e tu|n e tu];
    simpl; try done.
  - by destruct (create_announcement_outcome db oid u m ex sd)
      as [[-> _]|(doc & _ & _ & _ & _ & ->)].
  - by destruct (update_announcement_outcome db i u m ex sd)
      as [[-> _]|(old & l1 & l2 & _ & _ & _ & _ & _ & ->)].
  - by destruct (delete_announcement_outcome db i u)
      as [[-> _]|(old & l1 & l2 & _ & _ & _ & _ & ->)].
  - destruct (signup_outcome db n e tu)
      as [[-> _]|(a & l1 & l2 & _ & _ & _ & Hc & _ & ->)]; simpl; [done|].
    split; [done|]. by rewrite Hc, !map_app.
  - destruct (unregister_outcome db n e tu)
      as [[-> _]|(a & l1 & l2 & _ & _ & _ & Hc & _ & ->)]; simpl; [done|].
    split; [done|]. by rewrite Hc, !map_app.
Qed.

Lemma dates_parse_on_true parse (expiration_date : string)
    (start_date : option string) :
  dates_parse_on parse expiration_date start_date = true →
  parse expiration_date ≠ None ∧
  ∀ s, given start_date = Some s → parse s ≠ None.
Proof.
  unfold dates_parse_on, given.
  destruct (parse expiration_date); [|done].
  destruct start_date as [sd|]; [|done].
  destruct (truthy (Some sd)); [|done].
  destruct (parse sd) eqn:Hsd; [|done].
  intros _. split; [done|]. intros s [= <-]. by rewrite Hsd.
Qed.

(** X13. Every announcement the router stores has dates the date parser
    accepts, whatever that parser accepts: when the expiration date of
    every stored announcement parses, and its start date when it has one,
    the same holds after any request.  Create and update store only dates
    they have parsed, and an update with no start date keeps the stored
    one. *)
Theorem stored_dates_stay_valid parse db req :
  Forall (dates_valid_on parse) (announcements_collection db) →
  Forall (dates_valid_on parse)
    (announcements_collection (handle_on parse db req).1).
Proof.
  intros Hok.
  destruct req as [day st et| |oid u m ex sd|i u m ex sd|i u| |n e tu|n e tu];
    simpl; try done.
  - unfold create_announcement_on.
    destruct (negb _); [done|]. destruct (_ || _); [done|].
    destruct (dates_parse_on parse ex sd) eqn:Hd; [|done]. simpl.
    apply Forall_app. split; [done|]. apply Forall_singleton.
    by apply dates_parse_on_true.
  - unfold update_announcement_on.
    destruct (negb _); [done|].
    destruct (dates_parse_on parse ex sd) eqn:Hd; [|done]. simpl.
    apply dates_parse_on_true in Hd as [Hex Hsd].
    destruct (find_one ann_id i (announcements_collection db)) as [old|] eqn:Hf.
    + apply find_one_Some in Hf as (l1 & l2 & Hc & Hid & Hl1).
      rewrite Hc, update_one_Some by done. simpl.
      assert (Forall (dates_valid_on parse)
                (l1 ++ set_announcement_fields m ex (given sd) old :: l2)).
      { rewrite Hc in Hok. apply Forall_app in Hok as [H1 [Hold H2]%Forall_cons].
        apply Forall_app. split; [done|]. apply Forall_cons. split; [|done].
        split; [done|]. simpl. intros s.
        destruct (given sd) as [g|] eqn:Hg.
        - intros [= <-]. by apply Hsd.
        - by apply Hold. }
      destruct (find_one ann_id i (l1 ++ _ :: l2)); exact H.
    + by rewrite update_one_None.
  - destruct (delete_announcement_outcome db i u)
      as [[-> _]|(old & l1 & l2 & _ & Hc & _ & _ & ->)]; simpl in *; [done|].
    rewrite Hc in Hok. apply Forall_app in Hok as [H1 [_ H2]%Forall_cons].
    by apply Forall_app.
  - by destruct (signup_outcome db n e tu)
      as [[-> _]|(a & l1 & l2 & _ & _ & _ & _ & _ & ->)].
  - by destruct (unregister_outcome db n e tu)
      as [[-> _]|(a & l1 & l2 & _ & _ & _ & _ & _ & ->)].
Qed.

Lemma stored_dates_stay_valid_witness :
  Forall (dates_valid_on strptime)
    (announcements_collection
       (handle_on strptime school
          (PUT_announcement "a1" "mrodriguez" "Hello" "2100-06-30" None)).1).
Proof.
  apply (stored_dates_stay_valid strptime school
           (PUT_announcement "a1" "mrodriguez" "Hello" "2100-06-30" None)).
  apply Forall_singleton. split; [discriminate|].
  intros s [= <-]. discriminate.
Defined.

Lemma unwind_days_frame (c c' : list Activity) :
  map activity_frame c = map activity_frame c' → unwind_days c = unwind_days c'.
Proof.
  revert c'. induction c as [|x c IH]; intros [|y c']; simpl; try done.
  intros [= Hi Hn Hs Hf Hrest]. unfold unwind_days in *. simpl.
  by rewrite Hs, (IH c' Hrest).
Qed.

(** X14. No request creates, deletes or reorders an activity, or changes
    its identity, name, schedule or other fields (only participants can
    change), and none touches the teachers; so [get_available_days]
    answers the same before and after any request. *)
Theorem requests_keep_activities db req :
  teachers_collection (handle db req).1 = teachers_collection db ∧
  map activity_frame (activities_collection (handle db req).1) =
    map activity_frame (activities_collection db) ∧
  get_available_days (handle db req).1 = get_available_days db.
Proof.
  destruct (handle_collections db req) as (Ht & Hf).
  split; [done|]. split; [done|].
  unfold get_available_days, aggregate_days.
  by rewrite (unwind_days_frame _ _ Hf).
Qed.

(** ** How the handlers compose *)

Lemma distinct_keys_same_activity (l : list Activity) (a b : Activity) :
  NoDup (map activity_key l) → a ∈ l → b ∈ l →
  activity_key a = activity_key b → a = b.
Proof.
  induction l as [|x l IH]; simpl; [by intros _ ?%elem_of_nil|].
  intros [Hx Hnd]%NoDup_cons [->|Ha]%elem_of_cons [->|Hb]%elem_of_cons Hk.
  - done.
  - destruct Hx. rewrite Hk. by apply list_elem_of_fmap_2.
  - destruct Hx. rewrite <- Hk. by apply list_elem_of_fmap_2.
  - by apply IH.
Qed.

Lemma listed_entries db day st et x :
  NoDup (map activity_key (activities_collection db)) →
  x ∈ list_activities db day st et ↔
  ∃ a, a ∈ activities_collection db ∧ x = entry a ∧
       day_filter day a = true ∧ time_filter st et a = true.
Proof.
  intros Hnd. rewrite list_activities_scan, scan_distinct by done. simpl.
  rewrite list_elem_of_fmap. split.
  - intros (a & -> & Ha). apply list_elem_of_In, filter_In in Ha as [Ha Hk].
    apply list_elem_of_In in Ha. unfold kept in Hk.
    apply andb_true_iff in Hk as [? ?]. by exists a.
  - intros (a & Ha & -> & Hd & Ht). exists a. split; [done|].
    apply list_elem_of_In, filter_In. split; [by apply list_elem_of_In|].
    unfold kept. by rewrite Hd, Ht.
Qed.

(** X15. After a successful signup the unfiltered listing shows it: under
    the key of that activity it has the document with the email appended
    to its participants. *)
Theorem signup_is_listed db activity_name email teacher_username db1 b :
  NoDup (map activity_key (activities_collection db)) →
  signup_for_activity db activity_name email teacher_username = (db1, Ok b) →
  ∃ a,
    find_one activity_id activity_name (activities_collection db) = Some a ∧
    dict_get (activity_key a) (list_activities db1 None None None) =
      Some (details (push_participant email a)) ∧
    participants (details (push_participant email a)) =
      participants (details a) ++ [email].
Proof.
  intros Hnd Hfirst.
  destruct (signup_outcome db activity_name email teacher_username)
    as [[_ Hno]|(a & l1 & l2 & _ & Ha & He & Hc & Hl1 & Heq)].
  - rewrite Hfirst in Hno. by destruct (Hno b).
  - rewrite Heq in Hfirst. injection Hfirst as <- _.
    exists a. split; [done|]. split; [|done].
    rewrite list_activities_scan. simpl.
    change (activity_key a) with (activity_key (push_participant email a)).
    rewrite scan_own_key; [done| |].
    + rewrite Hc in Hnd. by rewrite map_app in *.
    + apply elem_of_app. right. left.
Qed.

Lemma signup_is_listed_witness :
  ∃ a,
    find_one activity_id "Art Club" (activities_collection school) = Some a ∧
    dict_get (activity_key a)
      (list_activities
         (signup_for_activity school "Art Club" "amy@mergington.edu"
            (Some "mrodriguez")).1 None None None) =
      Some (details (push_participant "amy@mergington.edu" a)) ∧
    participants (details (push_participant "amy@mergington.edu" a)) =
      participants (details a) ++ ["amy@mergington.edu"].
Proof.
  apply (signup_is_listed school "Art Club" "amy@mergington.edu"
           (Some "mrodriguez") _
           (MessageBody "Signed up amy@mergington.edu for Art Club")).
  - exact school_keys_distinct.
  - reflexivity.
Defined.

(** X16. A wider time range lists at least what a narrower one lists:
    with distinct keys, when [start'] is not above [start_time] and
    [end'] not below [end_time] in the order of strings, every entry of
    the listing for [start_time], [end_time] is an entry of the listing
    for [start'], [end'], under the same day filter. *)
Theorem wider_range_lists_more db day start_time end_time start' end' x :
  NoDup (map activity_key (activities_collection db)) →
  start_time ≠ "" → end_time ≠ "" → start' ≠ "" → end' ≠ "" →
  str_le start' start_time → str_le end_time end' →
  x ∈ list_activities db day (Some start_time) (Some end_time) →
  x ∈ list_activities db day (Some start') (Some end').
Proof.
  intros Hnd Hs He Hs' He' Hls Hle.
  rewrite !listed_entries by done.
  intros (a & Ha & -> & Hd & Ht). exists a. repeat (split; [done|]).
  apply time_filter_given; [done..|].
  apply time_filter_given in Ht as (sd & s & e & ? & ? & ? & ? & ? & Hss & Hee);
    [|done..].
  exists sd, s, e. repeat (split; [done|]). split.
  - by transitivity start_time.
  - by transitivity end_time.
Qed.

Lemma chess_listed_morning :
  entry chess ∈ list_activities school None (Some "08:30") (Some "10:30").
Proof. left. Defined.

Lemma wider_range_lists_more_witness :
  entry chess ∈ list_activities school None (Some "08:00") (Some "11:00").
Proof.
  apply (wider_range_lists_more school None "08:30" "10:30" "08:00" "11:00"
           (entry chess)).
  - exact school_keys_distinct.
  - discriminate.
  - discriminate.
  - discriminate.
  - discriminate.
  - reflexivity.
  - reflexivity.
  - exact chess_listed_morning.
Defined.

(** X17. The two filters of [list_activities] compose by intersection:
    with distinct keys, an entry is in the listing for a day and a time
    range exactly when it is in the listing for the day alone and in the
    listing for the time range alone. *)
Theorem filters_compose db day start_time end_time x :
  NoDup (map activity_key (activities_collection db)) →
  x ∈ list_activities db day start_time end_time ↔
  x ∈ list_activities db day None None ∧
  x ∈ list_activities db None start_time end_time.
Proof.
  intros Hnd. rewrite !listed_entries by done. split.
  - intros (a & Ha & -> & Hd & Ht). split; exists a; by repeat (split; [done|]).
  - intros [(a & Ha & -> & Hd & _) (a' & Ha' & Hx & _ & Ht)].
    assert (a = a') as <-.
    { apply (distinct_keys_same_activity _ _ _ Hnd Ha Ha').
      by injection Hx. }
    by exists a.
Qed.

Lemma filters_compose_witness :
  entry chess ∈ list_activities school (Some "Friday") (Some "08:00") (Some "11:00") ↔
  entry chess ∈ list_activities school (Some "Friday") None None ∧
  entry chess ∈ list_activities school None (Some "08:00") (Some "11:00").
Proof.
  apply (filters_compose school (Some "Friday") (Some "08:00") (Some "11:00")
           (entry chess)).
  exact school_keys_distinct.
Defined.
